(** * aws_reservations_report.py: a shallow embedding and its properties

    The script scans every region of a cloud account for EC2 reserved
    instances, RDS reserved instances and savings plans, normalises each
    provider record into a flat dictionary and prints a report.

    The embedding keeps the shape of the Python source:
    - Python values are a small tagged union ([pyval]);
    - a Python [dict] is an association list in insertion order, written
      through [dict_set], so that a dict literal with a repeated key behaves
      as in Python (the last value wins, the first position is kept);
    - the cloud provider, the clock and the file system are an environment
      ([Env]) with a state of its own, so that an answer may depend on the
      calls made before it;
    - printing, provider calls and exceptions are threaded through a
      state-and-error monad ([M]). *)

From Stdlib Require Import ZArith Ascii String List Lia PrimFloat.
From stdpp Require Import base decidable option list strings gmap sorting pretty.

Local Open Scope string_scope.
Local Open Scope list_scope.

(** ** Python values *)

(** A [datetime.datetime]: the fields [strftime] and [str] read. The offset
    is the UTC offset of an aware datetime in seconds, [None] for a naive one. *)
Record datetime := {
  year : N; month : N; day : N;
  hour : N; minute : N; second : N;
  microsecond : N;
  utcoffset : option Z
}.

(** The ranges Python's [datetime] constructor enforces. *)
Definition valid_datetime (d : datetime) : Prop :=
  (1 <= year d <= 9999 /\ 1 <= month d <= 12 /\ 1 <= day d <= 31 /\
   hour d <= 23 /\ minute d <= 59 /\ second d <= 59 /\
   microsecond d <= 999999)%N.

Inductive pyval :=
| VNone
| VBool (b : bool)
| VInt (z : Z)
| VFloat (x : float)
| VStr (s : string)
| VDatetime (d : datetime).

(** What the interpreter provides and the script only calls: the text of a
    float. *)
Class Runtime := { float_repr : float -> string }.

(** One provider-native record, and one normalised Reservation Record: both
    are Python dicts from field name to value. *)
Definition dict (V : Type) := list (string * V).
Definition raw := dict pyval.
Definition record := dict pyval.

(** What the interpreter provides and the script only calls, continued:
    [json.dumps(records, indent=2, default=str)]. *)
Class JsonLib := { json_dumps : list record -> string }.

(** ** Exceptions *)

Inductive exn :=
| ClientError (code operation message : string)
| NoCredentialsError
| BotoCoreError (message : string)
| KeyError (key : string)
| AttributeError (message : string)
| OSError (message : string).

(** [isinstance(e, ClientError)], the test of every [except ClientError]. *)
Definition is_client_error (e : exn) : bool :=
  match e with ClientError _ _ _ => true | _ => false end.

(** [str(e)] as printed by the handlers. *)
Definition exn_str (e : exn) : string :=
  match e with
  | ClientError code op msg =>
      "An error occurred (" +:+ code +:+ ") when calling the " +:+ op +:+
      " operation: " +:+ msg
  | NoCredentialsError => "Unable to locate credentials"
  | BotoCoreError msg => msg
  | KeyError key => "'" +:+ key +:+ "'"
  | AttributeError msg => msg
  | OSError msg => msg
  end.

Inductive result (A : Type) :=
| Ok (a : A)
| Raise (e : exn).
Arguments Ok {A} a.
Arguments Raise {A} e.

(** The exceptions of [r], if any, are not provider errors. *)
Definition no_client_error {A} (r : result A) : Prop :=
  forall e, r = Raise e -> is_client_error e = false.

(** ** Dictionaries *)

(** [d.get(k)] *)
Fixpoint dict_get {V} (d : dict V) (k : string) : option V :=
  match d with
  | [] => None
  | (k', v) :: d' => if String.eqb k' k then Some v else dict_get d' k
  end.

(** [d.get(k, default)] *)
Definition dict_get_default {V} (d : dict V) (k : string) (default : V) : V :=
  match dict_get d k with Some v => v | None => default end.

(** [d[k]], raising [KeyError] *)
Definition subscript {V} (d : dict V) (k : string) : result V :=
  match dict_get d k with Some v => Ok v | None => Raise (KeyError k) end.

(** [d[k] = v]: an existing key keeps its position and takes the new value,
    a new key goes last. *)
Fixpoint dict_set {V} (d : dict V) (k : string) (v : V) : dict V :=
  match d with
  | [] => [(k, v)]
  | (k', v') :: d' =>
      if String.eqb k' k then (k', v) :: d' else (k', v') :: dict_set d' k v
  end.

(** A dict display [{k1: v1, ..., kn: vn}]: the items are stored left to
    right. *)
Definition dict_literal {V} (items : list (string * V)) : dict V :=
  fold_left (fun d kv => dict_set d (fst kv) (snd kv)) items [].

(** ** Text of numbers and dates *)

(** The decimal digits of [n], at least [width] of them ([%0<width>d] of a
    number that is not negative). *)
Fixpoint zero_pad (width : nat) (n : N) : string :=
  match width with
  | O => if (n =? 0)%N then "" else pretty n
  | S w => if (n <? 10 ^ N.of_nat w)%N
           then String "0" (zero_pad w n)
           else pretty n
  end.

(** The clock part of both date texts: [%H:%M:%S], two digits each. *)
Definition clock_text (d : datetime) : string :=
  zero_pad 2 (hour d) +:+ ":" +:+ zero_pad 2 (minute d) +:+ ":" +:+
  zero_pad 2 (second d).

(** [dt.strftime('%Y-%m-%d %H:%M:%S')]. CPython hands the format to the C
    library: [%Y] is the year in decimal without padding, so it has four
    digits from the year 1000 on and fewer before; [%m], [%d], [%H], [%M]
    and [%S] have two digits, zero-padded. *)
Definition strftime_seconds (d : datetime) : string :=
  pretty (year d) +:+ "-" +:+ zero_pad 2 (month d) +:+ "-" +:+
  zero_pad 2 (day d) +:+ " " +:+ clock_text d.

(** [dt.strftime('%Y-%m-%d %H:%M:%S UTC')]: the suffix is literal text of the
    format, whatever the offset of [dt]. *)
Definition strftime_utc (d : datetime) : string :=
  strftime_seconds d +:+ " UTC".

(** [str(dt)], that is [dt.isoformat(sep=' ')], which pads the year itself
    ([%04d-%02d-%02d]). *)
Definition datetime_str (d : datetime) : string :=
  zero_pad 4 (year d) +:+ "-" +:+ zero_pad 2 (month d) +:+ "-" +:+
  zero_pad 2 (day d) +:+ " " +:+ clock_text d +:+
  (if (microsecond d =? 0)%N then "" else "." +:+ zero_pad 6 (microsecond d)) +:+
  match utcoffset d with
  | None => ""
  | Some off =>
      let a := Z.to_N (Z.abs off) in
      (if (off <? 0)%Z then "-" else "+") +:+
      zero_pad 2 (a / 3600) +:+ ":" +:+ zero_pad 2 (a mod 3600 / 60) +:+
      (if (a mod 60 =? 0)%N then "" else ":" +:+ zero_pad 2 (a mod 60))
  end.

(** [str(v)], which is also what an f-string field [{v}] shows. *)
Definition py_str `{Runtime} (v : pyval) : string :=
  match v with
  | VNone => "None"
  | VBool true => "True"
  | VBool false => "False"
  | VInt z => pretty z
  | VFloat x => float_repr x
  | VStr s => s
  | VDatetime d => datetime_str d
  end.

(** [type(v).__name__] *)
Definition type_name (v : pyval) : string :=
  match v with
  | VNone => "NoneType"
  | VBool _ => "bool"
  | VInt _ => "int"
  | VFloat _ => "float"
  | VStr _ => "str"
  | VDatetime _ => "datetime.datetime"
  end.

(** [bool(v)], the test of [if v:]. *)
Definition truthy (v : pyval) : bool :=
  match v with
  | VNone => false
  | VBool b => b
  | VInt z => negb (z =? 0)%Z
  | VFloat x => negb (x =? 0)%float
  | VStr s => negb (String.eqb s "")
  | VDatetime _ => true
  end.

(** [v == s] for a string [s]: only a string equals a string. *)
Definition py_eq_str (v : pyval) (s : string) : bool :=
  match v with VStr t => String.eqb t s | _ => false end.

(** [o == s] where [o] is the result of [d.get(k)]: a missing key gives
    [None], which equals no string. *)
Definition opt_eq_str (o : option pyval) (s : string) : bool :=
  match o with Some v => py_eq_str v s | None => false end.

(** ** [format_datetime] (source lines 21-29) *)

Definition format_datetime (dt : pyval) : result pyval :=
  if truthy dt then
    match dt with
    | VStr _ => Ok dt
    | VDatetime d => Ok (VStr (strftime_utc d))
    | _ => Raise (AttributeError
             ("'" +:+ type_name dt +:+ "' object has no attribute 'strftime'"))
    end
  else Ok (VStr "N/A").

(** ** Exceptions in pure code *)

Global Instance result_ret : MRet result := @Ok.
Global Instance result_bind : MBind result := fun A B f r =>
  match r with Ok a => f a | Raise e => Raise e end.
Global Instance result_fmap : FMap result := fun A B f r =>
  match r with Ok a => Ok (f a) | Raise e => Raise e end.

(** A dict display whose value expressions may raise: they are evaluated
    left to right, and the first exception leaves the display. *)
Definition dict_display (items : list (string * result pyval)) : result record :=
  dict_literal <$> mapM (fun kv => v ← snd kv; mret (fst kv, v)) items.

(** [d.get(k)] as a value: Python's [None] when the key is missing. *)
Definition get_or_none (d : dict pyval) (k : string) : pyval :=
  dict_get_default d k VNone.

(** ** The environment: provider, clock and file system *)

Definition response := dict (list raw).

Inductive api_call :=
| GetCallerIdentity
| DescribeRegions
| DescribeReservedInstances (region : string)
| DescribeReservedDBInstances (region : string)
| DescribeSavingsPlans (region : string)
| WriteFile (filename : string).

(** Each operation answers from the current state of the environment and
    moves it. A provider operation stands for [session.client(...)] and the
    call on the client, which share one [try] block in the source. *)
Record Env (S : Type) := {
  get_caller_identity : S -> result (dict string) * S;
  describe_regions : S -> result (dict (list (dict string))) * S;
  describe_reserved_instances : string -> S -> result response * S;
  describe_reserved_db_instances : string -> S -> result response * S;
  describe_savings_plans : string -> S -> result response * S;
  clock_now : S -> datetime;
  write_file : string -> string -> S -> result unit * S
}.
Arguments get_caller_identity {S} _ _.
Arguments describe_regions {S} _ _.
Arguments describe_reserved_instances {S} _ _ _.
Arguments describe_reserved_db_instances {S} _ _ _.
Arguments describe_savings_plans {S} _ _ _.
Arguments clock_now {S} _ _.
Arguments write_file {S} _ _ _ _.

(** The state of a run: the environment, the lines printed so far and the
    calls made so far, oldest first. *)
Record world (S : Type) := World {
  env_state : S;
  stdout : list string;
  api_log : list api_call
}.
Arguments World {S} _ _ _.
Arguments env_state {S} _.
Arguments stdout {S} _.
Arguments api_log {S} _.

(** ** The monad of the script: state and exceptions *)

Definition M (S A : Type) := world S -> result A * world S.

Global Instance M_ret {S} : MRet (M S) := fun A a w => (Ok a, w).
Global Instance M_bind {S} : MBind (M S) := fun A B f m w =>
  match m w with
  | (Ok a, w') => f a w'
  | (Raise e, w') => (Raise e, w')
  end.

(** A pure computation that may raise. *)
Definition lift {S A} (r : result A) : M S A := fun w => (r, w).

(** The world after one more line on the console. *)
Definition printed {S} (line : string) (w : world S) : world S :=
  World (env_state w) (stdout w ++ [line]) (api_log w).

(** [print(line)] *)
Definition print {S} (line : string) : M S unit := fun w =>
  (Ok tt, printed line w).

(** One call of the environment, logged. *)
Definition call {S A} (c : api_call) (op : S -> result A * S) : M S A := fun w =>
  let (r, s') := op (env_state w) in
  (r, World s' (stdout w) (api_log w ++ [c])).

(** [try: body / except <class> as e: handler e]; [catches] is the
    [isinstance] test of the clause. *)
Definition try_except {S A} (body : M S A) (catches : exn -> bool)
    (handler : exn -> M S A) : M S A := fun w =>
  match body w with
  | (Raise e, w') => if catches e then handler e w' else (Raise e, w')
  | ok => ok
  end.

(** [for x in xs: body x] *)
Fixpoint for_each {S A} (xs : list A) (body : A -> M S unit) : M S unit :=
  match xs with
  | [] => mret tt
  | x :: xs' => _ ← body x; for_each xs' body
  end.

Definition nl : string := String "010" "".

(** [s * n] *)
Fixpoint str_mul (s : string) (n : nat) : string :=
  match n with O => "" | S n' => s +:+ str_mul s n' end.

(** ** The script *)

Section Script.
Context `{Runtime} `{JsonLib} {S : Type} (E : Env S).

(** The fallback of [get_all_regions] (source lines 41-46). *)
Definition fallback_regions : list string :=
  [ "us-east-1"; "us-east-2"; "us-west-1"; "us-west-2";
    "eu-west-1"; "eu-west-2"; "eu-west-3"; "eu-central-1";
    "ap-southeast-1"; "ap-southeast-2"; "ap-northeast-1"; "ap-northeast-2";
    "ap-south-1"; "ca-central-1"; "sa-east-1" ].

(** [get_all_regions] (source lines 32-46) *)
Definition get_all_regions : M S (list string) :=
  try_except
    (response ← call DescribeRegions (describe_regions E);
     regions ← lift (subscript response "Regions");
     lift (mapM (fun region => subscript region "RegionName") regions))
    is_client_error
    (fun e =>
       _ ← print ("Error getting regions: " +:+ exn_str e);
       mret fallback_regions).

(** [e.response['Error']['Code']] *)
Definition error_code (e : exn) : string :=
  match e with ClientError code _ _ => code | _ => "" end.

(** [code not in ['UnauthorizedOperation', 'AccessDenied']] *)
Definition not_denied (code : string) : bool :=
  negb (String.eqb code "UnauthorizedOperation" || String.eqb code "AccessDenied").

(** The [except ClientError] clause the three fetchers share
    (source lines 79-82, 112-115, 148-151). *)
Definition fetch_handler (what region : string) (e : exn) : M S (list record) :=
  _ ← (if not_denied (error_code e)
       then print ("Error retrieving " +:+ what +:+ " in " +:+ region +:+ ": "
                   +:+ exn_str e)
       else mret tt);
  mret [].

(** The dict display of source lines 57-75. *)
Definition ec2_record (region : string) (ri : raw) : result record :=
  dict_display
    [ ("Type", Ok (VStr "EC2 Reserved Instance"));
      ("Region", Ok (VStr region));
      ("ReservedInstancesId", subscript ri "ReservedInstancesId");
      ("InstanceType", subscript ri "InstanceType");
      ("AvailabilityZone", Ok (dict_get_default ri "AvailabilityZone" (VStr "N/A")));
      ("State", subscript ri "State");
      ("Start", format_datetime (get_or_none ri "Start"));
      ("End", format_datetime (get_or_none ri "End"));
      ("Duration", d ← subscript ri "Duration"; Ok (VStr (py_str d +:+ " seconds")));
      ("InstanceCount", subscript ri "InstanceCount");
      ("ProductDescription", subscript ri "ProductDescription");
      ("InstanceTenancy", subscript ri "InstanceTenancy");
      ("OfferingClass", subscript ri "OfferingClass");
      ("OfferingType", subscript ri "OfferingType");
      ("FixedPrice", Ok (dict_get_default ri "FixedPrice" (VInt 0)));
      ("UsagePrice", Ok (dict_get_default ri "UsagePrice" (VInt 0)));
      ("CurrencyCode", Ok (dict_get_default ri "CurrencyCode" (VStr "USD"))) ].

(** [get_ec2_reserved_instances] (source lines 49-82) *)
Definition get_ec2_reserved_instances (region : string) : M S (list record) :=
  try_except
    (response ← call (DescribeReservedInstances region)
                     (describe_reserved_instances E region);
     items ← lift (subscript response "ReservedInstances");
     lift (mapM (ec2_record region) items))
    is_client_error
    (fetch_handler "EC2 Reserved Instances" region).

(** The dict display of source lines 93-108. *)
Definition rds_record (region : string) (ri : raw) : result record :=
  dict_display
    [ ("Type", Ok (VStr "RDS Reserved Instance"));
      ("Region", Ok (VStr region));
      ("ReservedDBInstanceId", subscript ri "ReservedDBInstanceId");
      ("DBInstanceClass", subscript ri "DBInstanceClass");
      ("Engine", subscript ri "ProductDescription");
      ("State", subscript ri "State");
      ("Start", format_datetime (get_or_none ri "StartTime"));
      ("Duration", d ← subscript ri "Duration"; Ok (VStr (py_str d +:+ " seconds")));
      ("DBInstanceCount", subscript ri "DBInstanceCount");
      ("OfferingType", subscript ri "OfferingType");
      ("MultiAZ", subscript ri "MultiAZ");
      ("FixedPrice", Ok (dict_get_default ri "FixedPrice" (VInt 0)));
      ("UsagePrice", Ok (dict_get_default ri "UsagePrice" (VInt 0)));
      ("CurrencyCode", Ok (dict_get_default ri "CurrencyCode" (VStr "USD"))) ].

(** [get_rds_reserved_instances] (source lines 85-115) *)
Definition get_rds_reserved_instances (region : string) : M S (list record) :=
  try_except
    (response ← call (DescribeReservedDBInstances region)
                     (describe_reserved_db_instances E region);
     items ← lift (subscript response "ReservedDBInstances");
     lift (mapM (rds_record region) items))
    is_client_error
    (fetch_handler "RDS Reserved Instances" region).

(** The dict display of source lines 126-144. The key ['Region'] is written
    twice, at line 128 and at line 143. *)
Definition sp_record (region : string) (sp : raw) : result record :=
  dict_display
    [ ("Type", Ok (VStr "Savings Plan"));
      ("Region", Ok (VStr region));
      ("SavingsPlanId", subscript sp "savingsPlanId");
      ("SavingsPlanArn", subscript sp "savingsPlanArn");
      ("Description", Ok (dict_get_default sp "description" (VStr "N/A")));
      ("State", subscript sp "state");
      ("PlanType", subscript sp "savingsPlanType");
      ("PaymentOption", subscript sp "paymentOption");
      ("Start", format_datetime (get_or_none sp "start"));
      ("End", format_datetime (get_or_none sp "end"));
      ("Commitment",
        c ← subscript sp "commitment";
        cur ← subscript sp "currency";
        Ok (VStr (py_str c +:+ " " +:+ py_str cur +:+ "/hour")));
      ("Currency", subscript sp "currency");
      ("UpfrontPayment", Ok (dict_get_default sp "upfrontPaymentAmount" (VStr "N/A")));
      ("RecurringPayment", Ok (dict_get_default sp "recurringPaymentAmount" (VStr "N/A")));
      ("TermDurationInSeconds", Ok (dict_get_default sp "termDurationInSeconds" (VStr "N/A")));
      ("EC2InstanceFamily", Ok (dict_get_default sp "ec2InstanceFamily" (VStr "N/A")));
      ("Region", Ok (dict_get_default sp "region" (VStr "N/A"))) ].

(** [get_savings_plans] (source lines 118-151) *)
Definition get_savings_plans (region : string) : M S (list record) :=
  try_except
    (response ← call (DescribeSavingsPlans region)
                     (describe_savings_plans E region);
     items ← lift (subscript response "savingsPlans");
     lift (mapM (sp_record region) items))
    is_client_error
    (fetch_handler "Savings Plans" region).

(** [[r for r in all_reservations if r['Type'] == label]] *)
Fixpoint select_type (label : string) (all : list record) : result (list record) :=
  match all with
  | [] => Ok []
  | r :: rest =>
      t ← subscript r "Type";
      if py_eq_str t label
      then cons r <$> select_type label rest
      else select_type label rest
  end.

(** [print_summary] (source lines 154-166) *)
Definition print_summary (all_reservations : list record) : M S unit :=
  ec2 ← lift (select_type "EC2 Reserved Instance" all_reservations);
  let ec2_count := length ec2 in
  rds ← lift (select_type "RDS Reserved Instance" all_reservations);
  let rds_count := length rds in
  sp ← lift (select_type "Savings Plan" all_reservations);
  let sp_count := length sp in
  _ ← print (nl +:+ str_mul "=" 80);
  _ ← print "SUMMARY";
  _ ← print (str_mul "=" 80);
  _ ← print ("EC2 Reserved Instances: " +:+ pretty ec2_count);
  _ ← print ("RDS Reserved Instances: " +:+ pretty rds_count);
  _ ← print ("Savings Plans: " +:+ pretty sp_count);
  print ("Total Reservations: " +:+ pretty (length all_reservations)).

(** [print_detailed_report] (source lines 169-185) *)
Definition print_detailed_report (all_reservations : list record) : M S unit :=
  match all_reservations with
  | [] => print "No Reserved Instances or Savings Plans found in this account."
  | _ =>
      _ ← print (nl +:+ str_mul "=" 80);
      _ ← print "DETAILED REPORT";
      _ ← print (str_mul "=" 80);
      for_each all_reservations (fun reservation =>
        t ← lift (subscript reservation "Type");
        _ ← print (nl +:+ py_str t +:+ ":");
        _ ← print (str_mul "-" 40);
        for_each reservation (fun kv =>
          if negb (String.eqb (fst kv) "Type")
          then print ("  " +:+ fst kv +:+ ": " +:+ py_str (snd kv))
          else mret tt))
  end.

(** [save_to_json] (source lines 188-195): every exception of the body is
    caught. *)
Definition save_to_json (all_reservations : list record) (filename : string)
  : M S unit :=
  try_except
    (_ ← call (WriteFile filename)
              (write_file E filename (json_dumps all_reservations));
     print (nl +:+ "Report saved to: " +:+ filename))
    (fun _ => true)
    (fun e => print ("Error saving to JSON: " +:+ exn_str e)).

(** The loop of [main] (source lines 223-244), with the two accumulators
    [all_reservations] and [regions_with_data] it updates. *)
Fixpoint scan_regions (regions : list string)
    (all_reservations : list record) (regions_with_data : gset string)
  : M S (list record * gset string) :=
  match regions with
  | [] => mret (all_reservations, regions_with_data)
  | region :: rest =>
      _ ← print (nl +:+ "Checking region: " +:+ region);
      let region_reservations := [] in
      ec2_reservations ← get_ec2_reserved_instances region;
      let region_reservations := region_reservations ++ ec2_reservations in
      rds_reservations ← get_rds_reserved_instances region;
      let region_reservations := region_reservations ++ rds_reservations in
      savings_plans ← get_savings_plans region;
      let region_reservations := region_reservations ++ savings_plans in
      match region_reservations with
      | _ :: _ =>
          _ ← print ("  Found " +:+ pretty (length region_reservations) +:+
                     " reservations in " +:+ region);
          scan_regions rest (all_reservations ++ region_reservations)
                       ({[region]} ∪ regions_with_data)
      | [] =>
          _ ← print ("  No reservations found in " +:+ region);
          scan_regions rest all_reservations regions_with_data
      end
  end.

(** [len([r for r in all_reservations if r.get('Region') == region])] *)
Definition region_count (all_reservations : list record) (region : string) : nat :=
  length (List.filter (fun r => opt_eq_str (dict_get r "Region") region)
                      all_reservations).

(** [sorted(regions_with_data)] *)
Definition sorted_regions (regions_with_data : gset string) : list string :=
  merge_sort String.le (elements regions_with_data).

(** The region index of [main] (source lines 247-255). *)
Definition print_region_index (all_reservations : list record)
    (regions_with_data : gset string) : M S unit :=
  _ ← print (nl +:+ str_mul "=" 80);
  _ ← print "REGIONS WITH RESERVATIONS";
  _ ← print (str_mul "=" 80);
  if decide (regions_with_data = ∅)
  then print "No regions found with reservations"
  else for_each (sorted_regions regions_with_data) (fun region =>
         print ("  " +:+ region +:+ ": " +:+
                pretty (region_count all_reservations region) +:+ " reservations")).

(** [main] (source lines 198-267) *)
Definition main : M S unit :=
  try_except
    (try_except
      (account_info ← call GetCallerIdentity (get_caller_identity E);
       account_id ← lift (subscript account_info "Account");
       _ ← print "AWS Reserved Instances and Savings Plans Report";
       _ ← print (str_mul "=" 50);
       _ ← print ("Account ID: " +:+ account_id);
       now ← (fun w => (Ok (clock_now E (env_state w)), w));
       _ ← print ("Generated: " +:+ strftime_seconds now);
       _ ← print (nl +:+ "Getting list of AWS regions...");
       regions ← get_all_regions;
       _ ← print ("Checking " +:+ pretty (length regions) +:+
                  " regions for reservations...");
       collected ← scan_regions regions [] ∅;
       let all_reservations := fst collected in
       let regions_with_data := snd collected in
       _ ← print_region_index all_reservations regions_with_data;
       _ ← print_summary all_reservations;
       _ ← print_detailed_report all_reservations;
       save_to_json all_reservations "aws_reservations_report.json")
      (fun e => match e with NoCredentialsError => true | _ => false end)
      (fun _ =>
         _ ← print "Error: AWS credentials not found. Please configure your AWS credentials.";
         print "You can use: aws configure, environment variables, or IAM roles."))
    (fun _ => true)
    (fun e => print ("An unexpected error occurred: " +:+ exn_str e)).

End Script.

(** ** The three fetchers as one family

    The source has three functions of one shape; the statements below range
    over them through [category]. *)

Inductive category := Compute | Database | SubscriptionPlan.

Section Family.
Context `{Runtime} {S : Type} (E : Env S).

Definition fetcher (c : category) : string -> M S (list record) :=
  match c with
  | Compute => get_ec2_reserved_instances E
  | Database => get_rds_reserved_instances E
  | SubscriptionPlan => get_savings_plans E
  end.

(** The provider operation behind each fetcher. *)
Definition provider_call (c : category) (region : string)
  : S -> result response * S :=
  match c with
  | Compute => describe_reserved_instances E region
  | Database => describe_reserved_db_instances E region
  | SubscriptionPlan => describe_savings_plans E region
  end.

Definition api_of (c : category) (region : string) : api_call :=
  match c with
  | Compute => DescribeReservedInstances region
  | Database => DescribeReservedDBInstances region
  | SubscriptionPlan => DescribeSavingsPlans region
  end.

(** The key of the response under which the provider lists its records. *)
Definition listing_key (c : category) : string :=
  match c with
  | Compute => "ReservedInstances"
  | Database => "ReservedDBInstances"
  | SubscriptionPlan => "savingsPlans"
  end.

(** The dict display each fetcher applies to one provider record. *)
Definition normalise (c : category) : string -> raw -> result record :=
  match c with
  | Compute => ec2_record
  | Database => rds_record
  | SubscriptionPlan => sp_record
  end.

(** The ['Type'] each fetcher writes. *)
Definition type_label (c : category) : string :=
  match c with
  | Compute => "EC2 Reserved Instance"
  | Database => "RDS Reserved Instance"
  | SubscriptionPlan => "Savings Plan"
  end.

(** The name each fetcher uses in its error line. *)
Definition log_name (c : category) : string :=
  match c with
  | Compute => "EC2 Reserved Instances"
  | Database => "RDS Reserved Instances"
  | SubscriptionPlan => "Savings Plans"
  end.

(** The line a fetcher prints for an error it reports. *)
Definition error_line (c : category) (region : string) (e : exn) : string :=
  "Error retrieving " +:+ log_name c +:+ " in " +:+ region +:+ ": " +:+ exn_str e.

(** What a fetcher call does, by the answer of the provider: a response is
    normalised record by record; a provider error gives the empty list, with
    a line printed unless its code is one of the two denial codes; any other
    exception leaves the fetcher. *)
Definition fetcher_outcome (c : category) (region : string) (w : world S)
  : result (list record) * world S :=
  let (r, s') := provider_call c region (env_state w) in
  let log := api_log w ++ [api_of c region] in
  match r with
  | Ok resp =>
      (items ← subscript resp (listing_key c); mapM (normalise c region) items,
       World s' (stdout w) log)
  | Raise e =>
      if is_client_error e then
        (Ok [],
         World s'
           (if not_denied (error_code e)
            then stdout w ++ [error_line c region e] else stdout w)
           log)
      else (Raise e, World s' (stdout w) log)
  end.

(** The aggregation as the contract of the reporter words it: the
    concatenation, over the regions in scan order, of the compute, the
    database and the subscription-plan results of each region. *)
Fixpoint aggregate_spec (regions : list string) : M S (list record) :=
  match regions with
  | [] => mret []
  | region :: rest =>
      compute ← fetcher Compute region;
      database ← fetcher Database region;
      plans ← fetcher SubscriptionPlan region;
      tail ← aggregate_spec rest;
      mret (compute ++ database ++ plans ++ tail)
  end.

End Family.

(** The optional fields of each category: the provider's name, the
    normalised name and the default the fetcher writes when the provider
    gives no such field. The second ['Region'] of the savings-plan display
    is not listed. *)
Definition optional_defaults (c : category) : list (string * string * pyval) :=
  match c with
  | Compute =>
      [ ("AvailabilityZone", "AvailabilityZone", VStr "N/A");
        ("Start", "Start", VStr "N/A");
        ("End", "End", VStr "N/A");
        ("FixedPrice", "FixedPrice", VInt 0);
        ("UsagePrice", "UsagePrice", VInt 0);
        ("CurrencyCode", "CurrencyCode", VStr "USD") ]
  | Database =>
      [ ("StartTime", "Start", VStr "N/A");
        ("FixedPrice", "FixedPrice", VInt 0);
        ("UsagePrice", "UsagePrice", VInt 0);
        ("CurrencyCode", "CurrencyCode", VStr "USD") ]
  | SubscriptionPlan =>
      [ ("description", "Description", VStr "N/A");
        ("start", "Start", VStr "N/A");
        ("end", "End", VStr "N/A");
        ("upfrontPaymentAmount", "UpfrontPayment", VStr "N/A");
        ("recurringPaymentAmount", "RecurringPayment", VStr "N/A");
        ("termDurationInSeconds", "TermDurationInSeconds", VStr "N/A");
        ("ec2InstanceFamily", "EC2InstanceFamily", VStr "N/A") ]
  end.

(** A normalised record [r] carries the default of every optional field its
    provider record [ri] lacks. *)
Definition defaults_filled (c : category) (ri : raw) (r : record) : Prop :=
  Forall (fun entry =>
            dict_get ri entry.1.1 = None ->
            dict_get r entry.1.2 = Some entry.2)
         (optional_defaults c).

(** A record whose ['Type'] is one of the three labels. *)
Definition typed (r : record) : Prop :=
  exists c, dict_get r "Type" = Some (VStr (type_label c)).

(** A record that falls in exactly one of the three classes the summary
    counts: its ['Type'] is one of the three labels, and exactly one of the
    three comparisons of [print_summary] holds for it. *)
Definition in_one_category (r : record) : Prop :=
  exists t,
    dict_get r "Type" = Some (VStr t) /\
    (t = "EC2 Reserved Instance" \/ t = "RDS Reserved Instance" \/
     t = "Savings Plan") /\
    Nat.b2n (py_eq_str (VStr t) "EC2 Reserved Instance") +
    Nat.b2n (py_eq_str (VStr t) "RDS Reserved Instance") +
    Nat.b2n (py_eq_str (VStr t) "Savings Plan") = 1.

(** A record that is a savings plan, or else carries a region of the index
    [rwd] as its ['Region']. *)
Definition indexed (rwd : gset string) (r : record) : Prop :=
  dict_get r "Type" = Some (VStr "Savings Plan") \/
  exists region, region ∈ rwd /\ dict_get r "Region" = Some (VStr region).

(** The lines of the summary for the given counts. *)
Definition summary_lines (ec2_count rds_count sp_count total : nat) : list string :=
  [ nl +:+ str_mul "=" 80; "SUMMARY"; str_mul "=" 80;
    "EC2 Reserved Instances: " +:+ pretty ec2_count;
    "RDS Reserved Instances: " +:+ pretty rds_count;
    "Savings Plans: " +:+ pretty sp_count;
    "Total Reservations: " +:+ pretty total ].

(** ** The fixed date format [YYYY-MM-DD HH:MM:SS UTC] *)

Definition is_digit (a : ascii) : bool :=
  (48 <=? N_of_ascii a)%N && (N_of_ascii a <=? 57)%N.

(** The number a string of decimal digits writes, [None] if another
    character occurs. *)
Fixpoint digits_value (acc : N) (s : string) : option N :=
  match s with
  | "" => Some acc
  | String a s' =>
      if is_digit a then digits_value (10 * acc + (N_of_ascii a - 48)) s'
      else None
  end.

(** [text] is [n] written with exactly [width] decimal digits. *)
Definition decimal_field (width : nat) (text : string) (n : N) : Prop :=
  String.length text = width /\ digits_value 0 text = Some n.

Definition decimal_fieldb (width : nat) (text : string) (n : N) : bool :=
  Nat.eqb (String.length text) width &&
  match digits_value 0 text with Some m => (m =? n)%N | None => false end.

(** [text] is the date [d] in the format [YYYY-MM-DD HH:MM:SS UTC]. *)
Definition utc_text (d : datetime) (text : string) : Prop :=
  exists Y M D h m s,
    text = Y +:+ "-" +:+ M +:+ "-" +:+ D +:+ " " +:+ h +:+ ":" +:+ m +:+ ":"
           +:+ s +:+ " UTC" /\
    decimal_field 4 Y (year d) /\ decimal_field 2 M (month d) /\
    decimal_field 2 D (day d) /\ decimal_field 2 h (hour d) /\
    decimal_field 2 m (minute d) /\ decimal_field 2 s (second d).

(** ** Sample environments for the closed examples *)

(** A runtime for closed examples; none of them holds a float. *)
Definition sample_runtime : Runtime := {| float_repr := fun _ => "0.0" |}.

(** An environment without state whose answers depend on the region only. *)
Definition static_env
    (regions : result (dict (list (dict string))))
    (ec2 rds sp : string -> result response) : Env unit := {|
  get_caller_identity := fun s => (Ok [("Account", "123456789012")], s);
  describe_regions := fun s => (regions, s);
  describe_reserved_instances := fun region s => (ec2 region, s);
  describe_reserved_db_instances := fun region s => (rds region, s);
  describe_savings_plans := fun region s => (sp region, s);
  clock_now := fun _ =>
    {| year := 2024; month := 3; day := 9; hour := 7; minute := 5;
       second := 0; microsecond := 0; utcoffset := None |};
  write_file := fun _ _ s => (Ok tt, s)
|}.

Definition one_region : result (dict (list (dict string))) :=
  Ok [("Regions", [[("RegionName", "us-east-1")]])].
Definition no_instances (_ : string) : result response :=
  Ok [("ReservedInstances", [])].
Definition no_db_instances (_ : string) : result response :=
  Ok [("ReservedDBInstances", [])].
Definition no_plans (_ : string) : result response :=
  Ok [("savingsPlans", [])].

(** A savings plan with its mandatory fields only. *)
Definition plan0 : raw :=
  [ ("savingsPlanId", VStr "sp-1"); ("savingsPlanArn", VStr "arn:sp-1");
    ("state", VStr "active"); ("savingsPlanType", VStr "Compute");
    ("paymentOption", VStr "No Upfront"); ("commitment", VStr "1.5");
    ("currency", VStr "USD") ].

(** A compute reservation with its mandatory fields only. *)
Definition instance0 : raw :=
  [ ("ReservedInstancesId", VStr "ri-1"); ("InstanceType", VStr "t3.micro");
    ("State", VStr "active"); ("Duration", VInt 31536000);
    ("InstanceCount", VInt 2); ("ProductDescription", VStr "Linux/UNIX");
    ("InstanceTenancy", VStr "default"); ("OfferingClass", VStr "standard");
    ("OfferingType", VStr "No Upfront") ].

(** One savings plan in every region, nothing else. *)
Definition plans_env : Env unit :=
  static_env one_region no_instances no_db_instances
             (fun _ => Ok [("savingsPlans", [plan0])]).

(** One compute reservation in every region, nothing else. *)
Definition instances_env : Env unit :=
  static_env one_region (fun _ => Ok [("ReservedInstances", [instance0])])
             no_db_instances no_plans.

(** The compute endpoint cannot be reached: botocore raises an error that is
    not a [ClientError]. *)
Definition unreachable_env : Env unit :=
  static_env one_region
             (fun _ => Raise (BotoCoreError "Could not connect to the endpoint URL"))
             no_db_instances no_plans.


Definition w0 : world unit := World tt [] [].

(** What the savings-plan fetcher makes of [plan0], whatever the region. *)
Definition plan0_record : record :=
  [ ("Type", VStr "Savings Plan"); ("Region", VStr "N/A");
    ("SavingsPlanId", VStr "sp-1"); ("SavingsPlanArn", VStr "arn:sp-1");
    ("Description", VStr "N/A"); ("State", VStr "active");
    ("PlanType", VStr "Compute"); ("PaymentOption", VStr "No Upfront");
    ("Start", VStr "N/A"); ("End", VStr "N/A");
    ("Commitment", VStr "1.5 USD/hour"); ("Currency", VStr "USD");
    ("UpfrontPayment", VStr "N/A"); ("RecurringPayment", VStr "N/A");
    ("TermDurationInSeconds", VStr "N/A"); ("EC2InstanceFamily", VStr "N/A") ].

(** What the compute fetcher makes of [instance0] in [us-east-1]. *)
Definition instance0_record : record :=
  [ ("Type", VStr "EC2 Reserved Instance"); ("Region", VStr "us-east-1");
    ("ReservedInstancesId", VStr "ri-1"); ("InstanceType", VStr "t3.micro");
    ("AvailabilityZone", VStr "N/A"); ("State", VStr "active");
    ("Start", VStr "N/A"); ("End", VStr "N/A");
    ("Duration", VStr "31536000 seconds"); ("InstanceCount", VInt 2);
    ("ProductDescription", VStr "Linux/UNIX");
    ("InstanceTenancy", VStr "default"); ("OfferingClass", VStr "standard");
    ("OfferingType", VStr "No Upfront"); ("FixedPrice", VInt 0);
    ("UsagePrice", VInt 0); ("CurrencyCode", VStr "USD") ].

(** The world after the scan of [us-east-1] in [plans_env]. *)
Definition plans_scan_world : world unit :=
  World tt
    [ nl +:+ "Checking region: us-east-1";
      "  Found 1 reservations in us-east-1" ]
    [ DescribeReservedInstances "us-east-1";
      DescribeReservedDBInstances "us-east-1";
      DescribeSavingsPlans "us-east-1" ].

Definition date0 : datetime :=
  {| year := 2024; month := 3; day := 9; hour := 7; minute := 5; second := 0;
     microsecond := 0; utcoffset := Some 0%Z |}.


(** ** Tables for the statements about the rest of the script *)

(** The keys of a normalised record, in the order of the dict display. *)
Definition field_names (c : category) : list string :=
  match c with
  | Compute =>
      [ "Type"; "Region"; "ReservedInstancesId"; "InstanceType";
        "AvailabilityZone"; "State"; "Start"; "End"; "Duration";
        "InstanceCount"; "ProductDescription"; "InstanceTenancy";
        "OfferingClass"; "OfferingType"; "FixedPrice"; "UsagePrice";
        "CurrencyCode" ]
  | Database =>
      [ "Type"; "Region"; "ReservedDBInstanceId"; "DBInstanceClass"; "Engine";
        "State"; "Start"; "Duration"; "DBInstanceCount"; "OfferingType";
        "MultiAZ"; "FixedPrice"; "UsagePrice"; "CurrencyCode" ]
  | SubscriptionPlan =>
      [ "Type"; "Region"; "SavingsPlanId"; "SavingsPlanArn"; "Description";
        "State"; "PlanType"; "PaymentOption"; "Start"; "End"; "Commitment";
        "Currency"; "UpfrontPayment"; "RecurringPayment";
        "TermDurationInSeconds"; "EC2InstanceFamily" ]
  end.

(** The fields read with [ri[native]] and stored as they are: the
    provider's name and the normalised name. *)
Definition mandatory_copies (c : category) : list (string * string) :=
  match c with
  | Compute =>
      [ ("ReservedInstancesId", "ReservedInstancesId");
        ("InstanceType", "InstanceType"); ("State", "State");
        ("InstanceCount", "InstanceCount");
        ("ProductDescription", "ProductDescription");
        ("InstanceTenancy", "InstanceTenancy");
        ("OfferingClass", "OfferingClass"); ("OfferingType", "OfferingType") ]
  | Database =>
      [ ("ReservedDBInstanceId", "ReservedDBInstanceId");
        ("DBInstanceClass", "DBInstanceClass");
        ("ProductDescription", "Engine"); ("State", "State");
        ("DBInstanceCount", "DBInstanceCount");
        ("OfferingType", "OfferingType"); ("MultiAZ", "MultiAZ") ]
  | SubscriptionPlan =>
      [ ("savingsPlanId", "SavingsPlanId"); ("savingsPlanArn", "SavingsPlanArn");
        ("state", "State"); ("savingsPlanType", "PlanType");
        ("paymentOption", "PaymentOption"); ("currency", "Currency") ]
  end.

(** The fields read with [ri.get(native, default)] and stored as they are
    when present (the dates and the second ['Region'] apart). *)
Definition optional_copies (c : category) : list (string * string) :=
  match c with
  | Compute =>
      [ ("AvailabilityZone", "AvailabilityZone"); ("FixedPrice", "FixedPrice");
        ("UsagePrice", "UsagePrice"); ("CurrencyCode", "CurrencyCode") ]
  | Database =>
      [ ("FixedPrice", "FixedPrice"); ("UsagePrice", "UsagePrice");
        ("CurrencyCode", "CurrencyCode") ]
  | SubscriptionPlan =>
      [ ("description", "Description");
        ("upfrontPaymentAmount", "UpfrontPayment");
        ("recurringPaymentAmount", "RecurringPayment");
        ("termDurationInSeconds", "TermDurationInSeconds");
        ("ec2InstanceFamily", "EC2InstanceFamily") ]
  end.

(** The provider fields a dict display subscripts: those copied and those
    an f-string reads. *)
Definition required_fields (c : category) : list string :=
  match c with
  | Compute =>
      [ "ReservedInstancesId"; "InstanceType"; "State"; "Duration";
        "InstanceCount"; "ProductDescription"; "InstanceTenancy";
        "OfferingClass"; "OfferingType" ]
  | Database =>
      [ "ReservedDBInstanceId"; "DBInstanceClass"; "ProductDescription";
        "State"; "Duration"; "DBInstanceCount"; "OfferingType"; "MultiAZ" ]
  | SubscriptionPlan =>
      [ "savingsPlanId"; "savingsPlanArn"; "state"; "savingsPlanType";
        "paymentOption"; "commitment"; "currency" ]
  end.

(** The provider fields passed to [format_datetime], with the normalised
    name of each. *)
Definition date_fields (c : category) : list (string * string) :=
  match c with
  | Compute => [ ("Start", "Start"); ("End", "End") ]
  | Database => [ ("StartTime", "Start") ]
  | SubscriptionPlan => [ ("start", "Start"); ("end", "End") ]
  end.

(** A value [format_datetime] accepts: falsy, text or a date. *)
Definition date_like (v : pyval) : bool :=
  negb (truthy v) ||
  match v with VStr _ | VDatetime _ => true | _ => false end.

(** The keys of a dict after [d[k] = v], from the keys before. *)
Fixpoint keys_add (ks : list string) (k : string) : list string :=
  match ks with
  | [] => [k]
  | k' :: ks' => if String.eqb k' k then k' :: ks' else k' :: keys_add ks' k
  end.

(** The three listing calls of one turn of the scan. *)
Definition region_calls (region : string) : list api_call :=
  [ DescribeReservedInstances region; DescribeReservedDBInstances region;
    DescribeSavingsPlans region ].

(** The line of the region index for one region. *)
Definition index_line (all : list record) (region : string) : string :=
  "  " +:+ region +:+ ": " +:+ pretty (region_count all region) +:+
  " reservations".

(** The lines of the detailed report for one record: its heading, a rule,
    and every field but ['Type'] in insertion order. *)
Definition record_lines `{Runtime} (heading : pyval) (r : record) : list string :=
  [ nl +:+ py_str heading +:+ ":"; str_mul "-" 40 ] ++
  List.map (fun kv => "  " +:+ fst kv +:+ ": " +:+ py_str (snd kv))
           (List.filter (fun kv => negb (String.eqb (fst kv) "Type")) r).

(** The lines [main] prints before it lists the regions. *)
Definition header_lines (account_id : string) (now : datetime) : list string :=
  [ "AWS Reserved Instances and Savings Plans Report"; str_mul "=" 50;
    "Account ID: " +:+ account_id; "Generated: " +:+ strftime_seconds now;
    nl +:+ "Getting list of AWS regions..." ].

(** The lines [main] prints for an exception that reaches its handlers. *)
Definition failure_lines (e : exn) : list string :=
  match e with
  | NoCredentialsError =>
      [ "Error: AWS credentials not found. Please configure your AWS credentials.";
        "You can use: aws configure, environment variables, or IAM roles." ]
  | _ => [ "An unexpected error occurred: " +:+ exn_str e ]
  end.

(** ** More sample environments *)

(** A stand-in serialiser for closed examples: no statement depends on the
    text it writes. *)
Definition sample_json : JsonLib :=
  {| json_dumps := fun records => "<" +:+ pretty (length records) +:+ " records>" |}.

(** A compute reservation without its ['State']. *)
Definition stateless_instance : raw :=
  [ ("ReservedInstancesId", VStr "ri-2"); ("InstanceType", VStr "t3.micro");
    ("Duration", VInt 31536000); ("InstanceCount", VInt 1);
    ("ProductDescription", VStr "Linux/UNIX");
    ("InstanceTenancy", VStr "default"); ("OfferingClass", VStr "standard");
    ("OfferingType", VStr "No Upfront") ].

(** The compute listing holds a well-formed record and a malformed one. *)
Definition malformed_env : Env unit :=
  static_env one_region
    (fun _ => Ok [("ReservedInstances", [instance0; stateless_instance])])
    no_db_instances no_plans.

(** The listing of the regions cannot be reached. *)
Definition offline_env : Env unit :=
  static_env (Raise (BotoCoreError "Could not connect to the endpoint URL"))
             no_instances no_db_instances no_plans.

(** The listing of the regions answers with an entry without a name. *)
Definition nameless_region_env : Env unit :=
  static_env (Ok [("Regions", [[("Endpoint", "ec2.us-east-1.amazonaws.com")]])])
             no_instances no_db_instances no_plans.

(** No credentials: the identity call fails before anything is printed. *)
Definition no_credentials_env : Env unit := {|
  get_caller_identity := fun s => (Raise NoCredentialsError, s);
  describe_regions := fun s => (one_region, s);
  describe_reserved_instances := fun region s => (no_instances region, s);
  describe_reserved_db_instances := fun region s => (no_db_instances region, s);
  describe_savings_plans := fun region s => (no_plans region, s);
  clock_now := fun _ => date0;
  write_file := fun _ _ s => (Ok tt, s)
|}.

(** A record without ['Type'], as no fetcher builds it. *)
Definition untyped_record : record := [("Region", VStr "us-east-1")].

(** What the compute fetcher makes of [instance0] is [instance0_record];
    the world after the scan of [us-east-1] in [instances_env]. *)
Definition instances_scan_world : world unit :=
  World tt
    [ nl +:+ "Checking region: us-east-1";
      "  Found 1 reservations in us-east-1" ]
    [ DescribeReservedInstances "us-east-1";
      DescribeReservedDBInstances "us-east-1";
      DescribeSavingsPlans "us-east-1" ].

(** A record that is not a savings plan. *)
Definition not_a_plan (r : record) : Prop :=
  dict_get r "Type" <> Some (VStr "Savings Plan").

(** The lines of the region index. *)
Definition index_lines (all : list record) (rwd : gset string) : list string :=
  [ nl +:+ str_mul "=" 80; "REGIONS WITH RESERVATIONS"; str_mul "=" 80 ] ++
  (if decide (rwd = ∅) then ["No regions found with reservations"]
   else List.map (index_line all) (sorted_regions rwd)).

(** The lines of the detailed report. *)
Definition detailed_lines `{Runtime} (all : list record) : list string :=
  match all with
  | [] => ["No Reserved Instances or Savings Plans found in this account."]
  | _ =>
      [ nl +:+ str_mul "=" 80; "DETAILED REPORT"; str_mul "=" 80 ] ++
      flat_map (fun r => record_lines (dict_get_default r "Type" VNone) r) all
  end.

(** The line [save_to_json] prints, by the outcome of the write. *)
Definition save_line (filename : string) (written : result unit) : string :=
  match written with
  | Ok _ => nl +:+ "Report saved to: " +:+ filename
  | Raise e => "Error saving to JSON: " +:+ exn_str e
  end.

(** What the two [except] clauses of [main] make of the outcome of its
    [try] block. *)
Definition reported {S} (outcome : result unit * world S)
  : result unit * world S :=
  match outcome with
  | (Ok u, w') => (Ok u, w')
  | (Raise e, w') =>
      (Ok tt, World (env_state w') (stdout w' ++ failure_lines e) (api_log w'))
  end.

(** What a run of [main] does, stage by stage: the identity call, the
    header, the listing of the regions, the scan, the three views and the
    file; the first exception ends the [try] block and is reported. *)
Definition main_outcome `{Runtime} `{JsonLib} {S} (E : Env S) (w : world S)
  : result unit * world S :=
  reported
    (let (identity, s1) := get_caller_identity E (env_state w) in
     let w1 := World s1 (stdout w) (api_log w ++ [GetCallerIdentity]) in
     match identity ≫= (fun info => subscript info "Account") with
     | Raise e => (Raise e, w1)
     | Ok account_id =>
         let w2 := World s1
                     (stdout w ++ header_lines account_id (clock_now E s1))
                     (api_log w1) in
         match get_all_regions E w2 with
         | (Raise e, w3) => (Raise e, w3)
         | (Ok regions, w3) =>
             match scan_regions E regions [] ∅
                     (printed ("Checking " +:+ pretty (length regions) +:+
                               " regions for reservations...") w3) with
             | (Raise e, w4) => (Raise e, w4)
             | (Ok (all, rwd), w4) =>
                 match print_region_index all rwd w4 with
                 | (Raise e, w5) => (Raise e, w5)
                 | (Ok _, w5) =>
                     match print_summary all w5 with
                     | (Raise e, w6) => (Raise e, w6)
                     | (Ok _, w6) =>
                         match print_detailed_report all w6 with
                         | (Raise e, w7) => (Raise e, w7)
                         | (Ok _, w7) =>
                             save_to_json E all "aws_reservations_report.json" w7
                         end
                     end
                 end
             end
         end
     end).

(** [len([r for r in all_reservations if r['Type'] == label])] on a list
    whose records all have a ['Type']. *)
Definition type_count (label : string) (all : list record) : nat :=
  length (List.filter (fun r => opt_eq_str (dict_get r "Type") label) all).

(** The lines of the summary of a list. *)
Definition summary_of (all : list record) : list string :=
  summary_lines (type_count "EC2 Reserved Instance" all)
                (type_count "RDS Reserved Instance" all)
                (type_count "Savings Plan" all) (length all).

(** The world in which [main] lists the regions, after a successful
    identity call that left the environment in state [s1]. *)
Definition after_header {S} (E : Env S) (w : world S) (s1 : S)
    (account_id : string) : world S :=
  World s1 (stdout w ++ header_lines account_id (clock_now E s1))
        (api_log w ++ [GetCallerIdentity]).

(** The world in which [main] starts the scan of [regions]. *)
Definition before_scan {S} (regions : list string) (w3 : world S) : world S :=
  printed ("Checking " +:+ pretty (length regions) +:+
           " regions for reservations...") w3.

(** The header [main] prints in the environments built by [static_env]. *)
Definition static_header : list string :=
  header_lines "123456789012"
    {| year := 2024; month := 3; day := 9; hour := 7; minute := 5;
       second := 0; microsecond := 0; utcoffset := None |}.

(** The world of such a run of [main] after the listing of the one region. *)
Definition listed_world : world unit :=
  World tt static_header [GetCallerIdentity; DescribeRegions].

(** The world of the run of [main] on [plans_env] after the scan. *)
Definition plans_main_world : world unit :=
  World tt
    (static_header ++
     [ "Checking 1 regions for reservations...";
       nl +:+ "Checking region: us-east-1";
       "  Found 1 reservations in us-east-1" ])
    ([GetCallerIdentity; DescribeRegions] ++ region_calls "us-east-1").

(** The world of the run of [main] on [unreachable_env] when the compute
    fetcher raises. *)
Definition unreachable_main_world : world unit :=
  World tt
    (static_header ++
     [ "Checking 1 regions for reservations...";
       nl +:+ "Checking region: us-east-1" ])
    [GetCallerIdentity; DescribeRegions; DescribeReservedInstances "us-east-1"].

(** A valid date before the year 1000. *)
Definition date999 : datetime :=
  {| year := 999; month := 3; day := 9; hour := 7; minute := 5; second := 0;
     microsecond := 0; utcoffset := Some 0%Z |}.

(** What a date field of a record holds, by the provider's value [v]: the
    text itself when [v] is text that is not empty, the date in the fixed
    format when [v] is a date of the year 1000 or later, and ["N/A"] when
    [v] is missing or falsy. *)
Definition date_field_of (v : pyval) (text : string) : Prop :=
  match v with
  | VStr s => text = if String.eqb s "" then "N/A" else s
  | VDatetime d => valid_datetime d -> (1000 <= year d)%N -> utc_text d text
  | _ => text = "N/A"
  end.

(** A call that writes a file. *)
Definition is_write (c : api_call) : bool :=
  match c with WriteFile _ => true | _ => false end.

(** The calls [calls] were added to the log between [w] and [w'], and none
    of them writes a file. *)
Definition only_reads {S} (w w' : world S) : Prop :=
  exists calls, api_log w' = api_log w ++ calls /\
                Forall (fun c => is_write c = false) calls.

(** * Properties *)

(** ** Dictionaries *)

Lemma dict_get_app {V} (d1 d2 : dict V) k :
  dict_get (d1 ++ d2) k =
  match dict_get d1 k with Some v => Some v | None => dict_get d2 k end.
Proof.
  induction d1 as [|[k0 v0] d1 IH]; simpl; [done|].
  by destruct (String.eqb k0 k).
Qed.

Lemma dict_get_set {V} (d : dict V) k k' v :
  dict_get (dict_set d k v) k' =
  if String.eqb k k' then Some v else dict_get d k'.
Proof.
  induction d as [|[k0 v0] d IH]; simpl; [done|].
  destruct (String.eqb_spec k0 k) as [->|Hne]; simpl.
  - by destruct (String.eqb k k').
  - rewrite IH. destruct (String.eqb_spec k0 k') as [->|?]; [|done].
    by destruct (String.eqb_spec k k') as [->|?].
Qed.

(** In a dict display the last item written under a key is the one read. *)
Lemma dict_literal_get {V} (items : list (string * V)) k :
  dict_get (dict_literal items) k = dict_get (reverse items) k.
Proof.
  unfold dict_literal.
  assert (Hgen : forall d : dict V,
    dict_get (fold_left (fun d kv => dict_set d (fst kv) (snd kv)) items d) k =
    match dict_get (reverse items) k with Some v => Some v | None => dict_get d k end).
  { induction items as [|[k0 v0] items IH]; intros d; simpl; [done|].
    rewrite IH, reverse_cons, dict_get_app, dict_get_set. simpl.
    destruct (dict_get (reverse items) k); [done|].
    by destruct (String.eqb k0 k). }
  rewrite Hgen. by destruct (dict_get (reverse items) k).
Qed.

Lemma mapM_result_Ok {A B} (f : A -> result B) (l : list A) (k : list B) :
  mapM f l = Ok k <-> Forall2 (fun x y => f x = Ok y) l k.
Proof.
  revert k. induction l as [|x l IH]; intros k; simpl.
  - split; [intros [= <-]; constructor | by inversion 1].
  - unfold mbind, result_bind, mret, result_ret.
    destruct (f x) as [y|e] eqn:Hx.
    + destruct (mapM f l) as [k'|e] eqn:Hl.
      * split.
        -- intros [= <-]. constructor; [done|]. by apply IH.
        -- inversion 1 as [|? y' ? k'' Hy Hk]; subst.
           apply IH in Hk. congruence.
      * split; [done|]. inversion 1 as [|? y' ? k'' Hy Hk]; subst.
        apply IH in Hk. congruence.
    + split; [done|]. inversion 1; congruence.
Qed.

(** Reading a dict display whose value expressions may raise: the record
    holds, under each key, the value of the last item written under it. *)
Lemma dict_display_get items r k :
  dict_display items = Ok r ->
  Ok <$> dict_get r k = dict_get (reverse items) k.
Proof.
  unfold dict_display, fmap, result_fmap.
  destruct (mapM _ items) as [l|e] eqn:Hm; [|done].
  intros [= <-]. rewrite dict_literal_get.
  apply mapM_result_Ok in Hm. apply Forall2_reverse in Hm.
  induction Hm as [|[k0 r0] [k1 v1] its kvs Hx _ IH]; simpl; [done|].
  simpl in Hx. destruct r0 as [v0|e]; [|done].
  injection Hx as <- <-.
  by destruct (String.eqb k0 k).
Qed.

(** ** Dates *)

Lemma below_forallb (P : N -> bool) (k : nat) :
  forallb P (List.map N.of_nat (seq 0 k)) = true ->
  forall n, (n < N.of_nat k)%N -> P n = true.
Proof.
  intros Hall n Hn. rewrite forallb_forall in Hall. apply Hall.
  rewrite <- (N2Nat.id n). apply in_map. apply in_seq. lia.
Qed.

Lemma decimal_fieldb_true width text n :
  decimal_fieldb width text n = true -> decimal_field width text n.
Proof.
  unfold decimal_fieldb, decimal_field. intros Hb.
  apply andb_true_iff in Hb as [Hlen Hval].
  apply Nat.eqb_eq in Hlen.
  destruct (digits_value 0 text) as [m|]; [|done].
  apply N.eqb_eq in Hval. by subst.
Qed.

Lemma zero_pad_2_field n : (n < 100)%N -> decimal_field 2 (zero_pad 2 n) n.
Proof.
  intros Hn. apply decimal_fieldb_true.
  apply (below_forallb (fun n => decimal_fieldb 2 (zero_pad 2 n) n) 100);
    [by vm_compute | lia].
Qed.

Lemma zero_pad_4_field n : (n < 10000)%N -> decimal_field 4 (zero_pad 4 n) n.
Proof.
  intros Hn. apply decimal_fieldb_true.
  apply (below_forallb (fun n => decimal_fieldb 4 (zero_pad 4 n) n)
                       (N.to_nat 10000)); [by vm_compute | lia].
Qed.

Lemma string_app_assoc (a b c : string) : (a +:+ b) +:+ c = a +:+ (b +:+ c).
Proof.
  induction a as [|x a IH]; [done|].
  change (String x ((a +:+ b) +:+ c) = String x (a +:+ b +:+ c)).
  by rewrite IH.
Qed.

Lemma zero_pad_4_long n : (1000 <= n)%N -> zero_pad 4 n = pretty n.
Proof.
  intros Hn. unfold zero_pad.
  by destruct (N.ltb_spec n (10 ^ N.of_nat 3)) as [Hlt|_];
    [change (10 ^ N.of_nat 3)%N with 1000%N in Hlt; lia|].
Qed.

Lemma strftime_utc_text d :
  valid_datetime d -> (1000 <= year d)%N -> utc_text d (strftime_utc d).
Proof.
  intros (Hy & Hm & Hd & Hh & Hmi & Hs & _) Hlong.
  exists (pretty (year d)), (zero_pad 2 (month d)), (zero_pad 2 (day d)),
         (zero_pad 2 (hour d)), (zero_pad 2 (minute d)), (zero_pad 2 (second d)).
  split.
  - unfold strftime_utc, strftime_seconds, clock_text.
    by rewrite !string_app_assoc.
  - split; [rewrite <- zero_pad_4_long by done; apply zero_pad_4_field; lia|].
    repeat split; apply zero_pad_2_field; lia.
Qed.

(** Before the year 1000 the text of [strftime] is not in the fixed format:
    the year has fewer than four digits. *)
Lemma strftime_utc_short_year :
  valid_datetime date999 /\
  format_datetime (VDatetime date999) = Ok (VStr "999-03-09 07:05:00 UTC") /\
  ~ utc_text date999 "999-03-09 07:05:00 UTC".
Proof.
  split; [unfold valid_datetime; simpl; lia|].
  split; [by vm_compute|].
  intros (Y & M & D & h & m & s & Htext & [Hlen Hval] & _).
  destruct Y as [|a [|b [|c [|e [|f Y]]]]]; try discriminate Hlen.
  injection Htext as <- <- <- <- _. by vm_compute in Hval.
Qed.

(** C6, as the code has it. [format_datetime] returns a text input unchanged
    when that text is not empty; it returns ["N/A"] when the input is absent
    ([None]) or is the empty text; and it renders a date of the year 1000 or
    later in the fixed format [YYYY-MM-DD HH:MM:SS UTC]. *)
Theorem format_datetime_cases :
  (forall s, s <> "" -> format_datetime (VStr s) = Ok (VStr s)) /\
  format_datetime (VStr "") = Ok (VStr "N/A") /\
  format_datetime VNone = Ok (VStr "N/A") /\
  (forall d, valid_datetime d -> (1000 <= year d)%N ->
     exists text, format_datetime (VDatetime d) = Ok (VStr text) /\
                  utc_text d text).
Proof.
  repeat split.
  - intros s Hs. unfold format_datetime. simpl.
    destruct (String.eqb_spec s "") as [->|_]; done.
  - intros d Hd Hlong. exists (strftime_utc d). split; [done|].
    by apply strftime_utc_text.
Qed.

(** C6, witness: a text and a date. *)
Lemma format_datetime_cases_witness :
  format_datetime (VStr "2024-03-09") = Ok (VStr "2024-03-09") /\
  exists text, format_datetime (VDatetime date0) = Ok (VStr text) /\
               utc_text date0 text.
Proof.
  destruct format_datetime_cases as (Htext & _ & _ & Hdate).
  split.
  - apply Htext. discriminate.
  - apply Hdate; [unfold valid_datetime|]; simpl; lia.
Defined.

(** C6, counterexample: the empty text is text, and it does not come back
    unchanged. *)
Lemma format_datetime_empty_text :
  format_datetime (VStr "") = Ok (VStr "N/A") /\
  format_datetime (VStr "") <> Ok (VStr "").
Proof. split; [reflexivity | discriminate]. Qed.

(** ** The region enumerator *)




(** ** Which exceptions pure code raises *)

Lemma nce_Ok {A} (a : A) : no_client_error (Ok a).
Proof. by intros e. Qed.

Lemma nce_subscript {V} (d : dict V) k : no_client_error (subscript d k).
Proof. intros e. unfold subscript. destruct (dict_get d k); by intros [= <-]. Qed.

Lemma nce_format_datetime v : no_client_error (format_datetime v).
Proof.
  intros e. unfold format_datetime.
  destruct (truthy v); [|done]. destruct v; by intros [= <-].
Qed.

Lemma nce_bind {A B} (r : result A) (f : A -> result B) :
  no_client_error r -> (forall a, no_client_error (f a)) ->
  no_client_error (r ≫= f).
Proof.
  intros Hr Hf e. destruct r as [a|e']; simpl.
  - apply Hf.
  - intros [= <-]. by apply Hr.
Qed.

Lemma nce_fmap {A B} (r : result A) (f : A -> B) :
  no_client_error r -> no_client_error (f <$> r).
Proof. intros Hr e. destruct r as [a|e']; simpl; [done|]. intros [= <-]. by apply Hr. Qed.

Lemma nce_mapM {A B} (f : A -> result B) (l : list A) :
  Forall (fun x => no_client_error (f x)) l -> no_client_error (mapM f l).
Proof.
  induction 1 as [|x l Hx _ IH]; simpl; [apply nce_Ok|].
  apply nce_bind; [done|]. intros y.
  apply nce_bind; [done|]. intros k. apply nce_Ok.
Qed.

Lemma nce_dict_display items :
  Forall (fun kv => no_client_error (snd kv)) items ->
  no_client_error (dict_display items).
Proof.
  intros Hall. apply nce_fmap, nce_mapM.
  eapply Forall_impl; [exact Hall|]. intros [k r] Hr. simpl in *.
  apply nce_bind; [done|]. intros v. apply nce_Ok.
Qed.

Ltac solve_nce :=
  first [ apply nce_Ok | apply nce_subscript | apply nce_format_datetime
        | apply nce_bind; [solve_nce | intros ?; solve_nce] ].

Lemma nce_normalise `{Runtime} c region ri :
  no_client_error (normalise c region ri).
Proof.
  destruct c; apply nce_dict_display;
    repeat (apply Forall_cons; split; [simpl; solve_nce|]);
    apply Forall_nil_2.
Qed.

(** ** One fetcher call *)

Section FetcherRun.
Context `{Runtime} {S : Type} (E : Env S).

Lemma fetch_shape_run api (op : S -> result response * S) key
    (mk : raw -> result record) what region w :
  (forall ri, no_client_error (mk ri)) ->
  try_except
    (response ← call api op;
     items ← lift (subscript response key);
     lift (mapM mk items))
    is_client_error (fetch_handler what region) w =
  let (r, s') := op (env_state w) in
  let log := api_log w ++ [api] in
  match r with
  | Ok resp => (items ← subscript resp key; mapM mk items,
                World s' (stdout w) log)
  | Raise e =>
      if is_client_error e then
        (Ok [],
         World s'
           (if not_denied (error_code e)
            then stdout w ++ ["Error retrieving " +:+ what +:+ " in " +:+
                              region +:+ ": " +:+ exn_str e]
            else stdout w)
           log)
      else (Raise e, World s' (stdout w) log)
  end.
Proof.
  intros Hmk.
  unfold try_except, mbind at 1, M_bind, call.
  destruct (op (env_state w)) as [[resp|e] s']; simpl.
  - unfold mbind, M_bind, lift.
    destruct (subscript resp key) as [items|e] eqn:Hsub; simpl.
    + destruct (mapM mk items) as [rs|e] eqn:Hmap; [done|].
      assert (is_client_error e = false) as ->; [|done].
      eapply nce_mapM; [|exact Hmap].
      apply Forall_forall. intros ri _. apply Hmk.
    + assert (is_client_error e = false) as ->; [|done].
      by eapply nce_subscript.
  - destruct (is_client_error e); [|done].
    unfold fetch_handler, mbind, M_bind, print, printed, mret, M_ret.
    by destruct (not_denied (error_code e)).
Qed.

Lemma fetcher_run c region w :
  fetcher E c region w = fetcher_outcome E c region w.
Proof.
  unfold fetcher_outcome.
  destruct c; simpl;
    [ unfold get_ec2_reserved_instances
    | unfold get_rds_reserved_instances
    | unfold get_savings_plans ];
    rewrite fetch_shape_run; try done;
    intros ri;
    [ apply (nce_normalise Compute)
    | apply (nce_normalise Database)
    | apply (nce_normalise SubscriptionPlan) ].
Qed.

End FetcherRun.

#[local] Existing Instance sample_runtime.

(** ** The error policy of the fetchers *)




(** ** What a normalised record holds *)

(** Reads field [k] of a record built by a dict display. *)
Ltac read_field Hr k :=
  let Hk := fresh "Hk" in
  pose proof (dict_display_get _ _ k Hr) as Hk;
  simpl in Hk;
  match type of Hk with
  | Ok <$> ?o = _ => destruct o; simpl in Hk; [injection Hk as Hk|discriminate Hk]
  end.

Lemma normalise_type `{Runtime} c region ri r :
  normalise c region ri = Ok r ->
  dict_get r "Type" = Some (VStr (type_label c)).
Proof.
  intros Hr. destruct c; simpl in Hr; read_field Hr "Type"; by subst.
Qed.

(** The compute and database fetchers write the scanned region. *)
Lemma normalise_region `{Runtime} c region ri r :
  c <> SubscriptionPlan ->
  normalise c region ri = Ok r ->
  dict_get r "Region" = Some (VStr region).
Proof.
  intros Hc Hr. destruct c; [| |done]; simpl in Hr;
    read_field Hr "Region"; by subst.
Qed.

(** The savings-plan fetcher writes ['Region'] twice; the record keeps the
    second value, the plan's own [region] field or ["N/A"]. *)
Lemma sp_record_region `{Runtime} region sp r :
  sp_record region sp = Ok r ->
  dict_get r "Region" = Some (dict_get_default sp "region" (VStr "N/A")).
Proof. intros Hr. read_field Hr "Region". by subst. Qed.

Lemma format_datetime_missing ri k :
  dict_get ri k = None -> format_datetime (get_or_none ri k) = Ok (VStr "N/A").
Proof. intros Hk. unfold get_or_none, dict_get_default. by rewrite Hk. Qed.

Lemma normalise_defaults `{Runtime} c region ri r :
  normalise c region ri = Ok r -> defaults_filled c ri r.
Proof.
  intros Hr. unfold defaults_filled.
  destruct c; simpl in Hr; simpl;
    repeat (apply Forall_cons; split;
            [ cbn [fst snd]; intros Hnone;
              match goal with
              | |- dict_get _ ?k = _ =>
                  pose proof (dict_display_get _ _ k Hr) as Hk
              end;
              simpl in Hk;
              rewrite ?(format_datetime_missing _ _ Hnone) in Hk;
              unfold dict_get_default in Hk; rewrite ?Hnone in Hk;
              match type of Hk with
              | Ok <$> ?o = _ =>
                  destruct o; simpl in Hk; [by injection Hk as ->|discriminate Hk]
              end
            |]);
    apply Forall_nil_2.
Qed.

(** C1, at the failing input: one savings plan without a [region] field,
    fetched for region [us-east-1]. The record returned has ['Region'], and
    its value is ["N/A"], not the region the fetcher was called with. *)
Theorem savings_plan_region_overwritten :
  get_savings_plans plans_env "us-east-1" w0 =
    (Ok [plan0_record], World tt [] [DescribeSavingsPlans "us-east-1"]) /\
  dict_get plan0_record "Region" = Some (VStr "N/A") /\
  dict_get plan0_record "Region" <> Some (VStr "us-east-1").
Proof. split; [reflexivity|]. split; [reflexivity|discriminate]. Qed.

(** C3, as the code has it. For every provider record a fetcher processes,
    every optional field of [optional_defaults] that the record lacks is
    written with the default coded for it: 0 for [FixedPrice] and
    [UsagePrice], ["USD"] for [CurrencyCode], ["N/A"] for the dates and for
    the other optional fields, the savings-plan amounts among them. *)
Theorem fetcher_fills_defaults `{Runtime} {S} (E : Env S) (c : category)
    (region : string) (w w' : world S) (resp : response) (s' : S)
    (items : list raw) (rs : list record) :
  provider_call E c region (env_state w) = (Ok resp, s') ->
  subscript resp (listing_key c) = Ok items ->
  fetcher E c region w = (Ok rs, w') ->
  Forall2 (defaults_filled c) items rs.
Proof.
  intros Hcall Hitems. rewrite fetcher_run. unfold fetcher_outcome.
  rewrite Hcall, Hitems. simpl. intros [= Hmap _].
  apply mapM_result_Ok in Hmap.
  eapply Forall2_impl; [exact Hmap|].
  intros ri r. apply normalise_defaults.
Qed.

(** C3, witness: the savings plan without optional fields. *)
Lemma fetcher_fills_defaults_witness :
  Forall2 (defaults_filled SubscriptionPlan) [plan0] [plan0_record].
Proof.
  apply (fetcher_fills_defaults plans_env SubscriptionPlan "us-east-1" w0
           (World tt [] [DescribeSavingsPlans "us-east-1"])
           [("savingsPlans", [plan0])] tt);
    reflexivity.
Defined.

(** C3, counterexample: a missing savings-plan amount is written as ["N/A"],
    not as 0, and a missing currency code is written as ["USD"], not as
    ["N/A"]. *)
Lemma defaults_not_uniform :
  (fetcher plans_env SubscriptionPlan "us-east-1" w0 =
     (Ok [plan0_record], World tt [] [DescribeSavingsPlans "us-east-1"]) /\
   dict_get plan0 "upfrontPaymentAmount" = None /\
   dict_get plan0_record "UpfrontPayment" = Some (VStr "N/A") /\
   dict_get plan0_record "UpfrontPayment" <> Some (VInt 0)) /\
  (fetcher instances_env Compute "us-east-1" w0 =
     (Ok [instance0_record], World tt [] [DescribeReservedInstances "us-east-1"]) /\
   dict_get instance0 "CurrencyCode" = None /\
   dict_get instance0_record "CurrencyCode" = Some (VStr "USD") /\
   dict_get instance0_record "CurrencyCode" <> Some (VStr "N/A")).
Proof.
  split; (split; [reflexivity|]); (split; [reflexivity|]);
    (split; [reflexivity|discriminate]).
Qed.

(** ** The scan of the regions *)

Section Scan.
Context `{Runtime} {S : Type} (E : Env S).

(** One turn of the loop of [main]. *)
Lemma scan_regions_cons region rest all rwd (w : world S) :
  scan_regions E (region :: rest) all rwd w =
  match fetcher E Compute region
          (printed (nl +:+ "Checking region: " +:+ region) w) with
  | (Raise e, w1) => (Raise e, w1)
  | (Ok ec2, w1) =>
      match fetcher E Database region w1 with
      | (Raise e, w2) => (Raise e, w2)
      | (Ok rds, w2) =>
          match fetcher E SubscriptionPlan region w2 with
          | (Raise e, w3) => (Raise e, w3)
          | (Ok sp, w3) =>
              match (ec2 ++ rds) ++ sp with
              | [] =>
                  scan_regions E rest all rwd
                    (printed ("  No reservations found in " +:+ region) w3)
              | _ :: _ =>
                  scan_regions E rest (all ++ (ec2 ++ rds) ++ sp)
                    ({[region]} ∪ rwd)
                    (printed ("  Found " +:+ pretty (length ((ec2 ++ rds) ++ sp))
                              +:+ " reservations in " +:+ region) w3)
              end
          end
      end
  end.
Proof.
  simpl. unfold mbind, M_bind, print.
  destruct (get_ec2_reserved_instances _ _ _) as [[ec2|e] w1]; [|done].
  destruct (get_rds_reserved_instances _ _ _) as [[rds|e] w2]; [|done].
  destruct (get_savings_plans _ _ _) as [[sp|e] w3]; [|done].
  by destruct ((ec2 ++ rds) ++ sp).
Qed.

(** Every record a fetcher returns carries the label of the fetcher. *)
Lemma fetcher_typed c region (w w' : world S) rs :
  fetcher E c region w = (Ok rs, w') ->
  Forall (fun r => dict_get r "Type" = Some (VStr (type_label c))) rs.
Proof.
  rewrite fetcher_run. unfold fetcher_outcome.
  destruct (provider_call E c region (env_state w)) as [[resp|e] s'].
  - destruct (subscript resp (listing_key c)) as [items|e]; simpl; [|done].
    intros [= Hmap _]. apply mapM_result_Ok in Hmap.
    induction Hmap as [|ri r items rs Hr _ IH]; constructor; [|done].
    by eapply normalise_type.
  - destruct (is_client_error e); [|done]. intros [= <- _]. constructor.
Qed.

Lemma fetcher_all_typed c region (w w' : world S) rs :
  fetcher E c region w = (Ok rs, w') -> Forall typed rs.
Proof.
  intros Hrun. eapply Forall_impl; [by eapply fetcher_typed|].
  intros r Hr. by exists c.
Qed.

(** The records the scan collects are typed, if those it started from are. *)
Lemma scan_regions_typed regions all rwd (w w' : world S) all' rwd' :
  Forall typed all ->
  scan_regions E regions all rwd w = (Ok (all', rwd'), w') ->
  Forall typed all'.
Proof.
  revert all rwd w. induction regions as [|region rest IH]; intros all rwd w Hall.
  - by intros [= <- _ _].
  - rewrite scan_regions_cons.
    destruct (fetcher E Compute _ _) as [[ec2|e] w1] eqn:H1; [|done].
    destruct (fetcher E Database _ _) as [[rds|e] w2] eqn:H2; [|done].
    destruct (fetcher E SubscriptionPlan _ _) as [[sp|e] w3] eqn:H3; [|done].
    apply fetcher_all_typed in H1, H2, H3.
    assert (Hrr : Forall typed ((ec2 ++ rds) ++ sp)).
    { by repeat apply Forall_app_2. }
    destruct ((ec2 ++ rds) ++ sp) eqn:Hrr'.
    + by apply IH.
    + apply IH. by apply Forall_app_2.
Qed.

End Scan.

(** ** The categories of the collected records *)

Lemma typed_in_one_category r : typed r -> in_one_category r.
Proof.
  intros [c Hc]. exists (type_label c). split; [done|].
  destruct c; simpl; split; auto.
Qed.

(** C10. Every record of the aggregated list has a ['Type'] that is one of
    the three labels, and exactly one of the three comparisons of the
    summary holds for it: the three classes are exhaustive and exclusive. *)
Theorem collected_records_in_one_category `{Runtime} {S} (E : Env S)
    (regions : list string) (w w' : world S)
    (all : list record) (rwd : gset string) :
  scan_regions E regions [] ∅ w = (Ok (all, rwd), w') ->
  Forall in_one_category all.
Proof.
  intros Hscan.
  eapply Forall_impl; [|exact typed_in_one_category].
  eapply scan_regions_typed; [|exact Hscan]. constructor.
Qed.

(** The scan of one region with one savings plan. *)
Lemma plans_scan :
  scan_regions plans_env ["us-east-1"] [] ∅ w0 =
    (Ok ([plan0_record], {["us-east-1"]}), plans_scan_world).
Proof. by vm_compute. Qed.

(** C10, witness: the scan of one region with one savings plan. *)
Lemma collected_records_in_one_category_witness :
  Forall in_one_category [plan0_record].
Proof.
  exact (collected_records_in_one_category plans_env ["us-east-1"] w0
           plans_scan_world [plan0_record] {["us-east-1"]} plans_scan).
Defined.

(** ** The summary *)

Lemma select_type_typed label all :
  Forall typed all ->
  select_type label all =
  Ok (List.filter (fun r => opt_eq_str (dict_get r "Type") label) all).
Proof.
  induction 1 as [|r all [c Hc] _ IH]; simpl; [done|].
  unfold subscript. rewrite Hc. simpl. rewrite IH.
  by destruct (String.eqb (type_label c) label).
Qed.

Lemma typed_counts_add_up all :
  Forall typed all ->
  length (List.filter (fun r => opt_eq_str (dict_get r "Type") "EC2 Reserved Instance") all) +
  length (List.filter (fun r => opt_eq_str (dict_get r "Type") "RDS Reserved Instance") all) +
  length (List.filter (fun r => opt_eq_str (dict_get r "Type") "Savings Plan") all)
  = length all.
Proof.
  induction 1 as [|r all [c Hc] _ IH]; simpl; [done|].
  rewrite Hc. destruct c; simpl; lia.
Qed.

(** C7. For a list the scan has aggregated, the three selections of
    [print_summary] succeed, their lengths add up to the length of the
    list, and the summary prints these three counts and that length. *)
Theorem summary_counts_add_up `{Runtime} {S} (E : Env S)
    (regions : list string) (w w' w2 : world S)
    (all : list record) (rwd : gset string) :
  scan_regions E regions [] ∅ w = (Ok (all, rwd), w') ->
  exists ec2 rds sp,
    select_type "EC2 Reserved Instance" all = Ok ec2 /\
    select_type "RDS Reserved Instance" all = Ok rds /\
    select_type "Savings Plan" all = Ok sp /\
    length ec2 + length rds + length sp = length all /\
    print_summary all w2 =
      (Ok tt,
       World (env_state w2)
         (stdout w2 ++
          summary_lines (length ec2) (length rds) (length sp) (length all))
         (api_log w2)).
Proof.
  intros Hscan.
  assert (Hall : Forall typed all).
  { eapply scan_regions_typed; [|exact Hscan]. constructor. }
  eexists _, _, _.
  split; [by apply select_type_typed|].
  split; [by apply select_type_typed|].
  split; [by apply select_type_typed|].
  split; [by apply typed_counts_add_up|].
  unfold print_summary, mbind, M_bind, lift.
  rewrite !select_type_typed by done.
  unfold print, printed, summary_lines. simpl.
  by rewrite <- !app_assoc.
Qed.

(** C7, witness: the scan of one region with one savings plan; the counts
    are 0, 0 and 1, and the total is 1. *)
Lemma summary_counts_add_up_witness :
  exists ec2 rds sp,
    select_type "EC2 Reserved Instance" [plan0_record] = Ok ec2 /\
    select_type "RDS Reserved Instance" [plan0_record] = Ok rds /\
    select_type "Savings Plan" [plan0_record] = Ok sp /\
    length ec2 + length rds + length sp = length [plan0_record] /\
    print_summary [plan0_record] plans_scan_world =
      (Ok tt,
       World (env_state plans_scan_world)
         (stdout plans_scan_world ++
          summary_lines (length ec2) (length rds) (length sp)
                        (length [plan0_record]))
         (api_log plans_scan_world)).
Proof.
  exact (summary_counts_add_up plans_env ["us-east-1"] w0 plans_scan_world
           plans_scan_world [plan0_record] {["us-east-1"]} plans_scan).
Defined.

(** ** The aggregated sequence *)

Section Aggregation.
Context `{Runtime} {S : Type} (E : Env S).

(** A fetcher reads the environment and the call log, not the console. *)
Lemma fetcher_same_env c region (w1 w2 : world S) :
  env_state w1 = env_state w2 -> api_log w1 = api_log w2 ->
  (fetcher E c region w1).1 = (fetcher E c region w2).1 /\
  env_state (fetcher E c region w1).2 = env_state (fetcher E c region w2).2 /\
  api_log (fetcher E c region w1).2 = api_log (fetcher E c region w2).2.
Proof.
  intros Henv Hlog. rewrite !fetcher_run. unfold fetcher_outcome.
  rewrite Henv, Hlog.
  destruct (provider_call E c region (env_state w2)) as [[resp|e] s']; simpl;
    [done|]. by destruct (is_client_error e).
Qed.

Lemma aggregate_spec_cons region rest (w : world S) :
  aggregate_spec E (region :: rest) w =
  match fetcher E Compute region w with
  | (Raise e, w1) => (Raise e, w1)
  | (Ok ec2, w1) =>
      match fetcher E Database region w1 with
      | (Raise e, w2) => (Raise e, w2)
      | (Ok rds, w2) =>
          match fetcher E SubscriptionPlan region w2 with
          | (Raise e, w3) => (Raise e, w3)
          | (Ok sp, w3) =>
              match aggregate_spec E rest w3 with
              | (Raise e, w4) => (Raise e, w4)
              | (Ok tail, w4) => (Ok (ec2 ++ rds ++ sp ++ tail), w4)
              end
          end
      end
  end.
Proof.
  simpl. unfold mbind, M_bind.
  destruct (get_ec2_reserved_instances _ _ _) as [[ec2|e] w1]; [|done].
  destruct (get_rds_reserved_instances _ _ _) as [[rds|e] w2]; [|done].
  destruct (get_savings_plans _ _ _) as [[sp|e] w3]; [|done].
  by destruct (aggregate_spec E rest w3) as [[tail|e] w4].
Qed.

Lemma scan_concat_gen regions all rwd (w w' : world S) :
  env_state w = env_state w' -> api_log w = api_log w' ->
  fst <$> (scan_regions E regions all rwd w).1 =
    (app all) <$> (aggregate_spec E regions w').1 /\
  env_state (scan_regions E regions all rwd w).2 =
    env_state (aggregate_spec E regions w').2 /\
  api_log (scan_regions E regions all rwd w).2 =
    api_log (aggregate_spec E regions w').2.
Proof.
  revert all rwd w w'.
  induction regions as [|region rest IH]; intros all rwd w w' Henv Hlog.
  - simpl. by rewrite app_nil_r.
  - rewrite scan_regions_cons, aggregate_spec_cons.
    set (wp := printed (nl +:+ "Checking region: " +:+ region) w).
    destruct (fetcher_same_env Compute region wp w' Henv Hlog) as (R1 & E1 & L1).
    destruct (fetcher E Compute region wp) as [r1 w1].
    destruct (fetcher E Compute region w') as [r1' w1'].
    simpl in R1, E1, L1. subst r1'.
    destruct r1 as [ec2|e]; [|done].
    destruct (fetcher_same_env Database region w1 w1' E1 L1) as (R2 & E2 & L2).
    destruct (fetcher E Database region w1) as [r2 w2].
    destruct (fetcher E Database region w1') as [r2' w2'].
    simpl in R2, E2, L2. subst r2'.
    destruct r2 as [rds|e]; [|done].
    destruct (fetcher_same_env SubscriptionPlan region w2 w2' E2 L2)
      as (R3 & E3 & L3).
    destruct (fetcher E SubscriptionPlan region w2) as [r3 w3].
    destruct (fetcher E SubscriptionPlan region w2') as [r3' w3'].
    simpl in R3, E3, L3. subst r3'.
    destruct r3 as [sp|e]; [|done].
    destruct ((ec2 ++ rds) ++ sp) as [|x rr] eqn:Hrr.
    + apply app_eq_nil in Hrr as [Hrr ->].
      apply app_eq_nil in Hrr as [-> ->].
      specialize (IH all rwd
        (printed ("  No reservations found in " +:+ region) w3) w3' E3 L3).
      destruct (scan_regions E rest all rwd _) as [r4 w4].
      destruct (aggregate_spec E rest w3') as [[tail|e] w4']; exact IH.
    + specialize (IH (all ++ x :: rr) ({[region]} ∪ rwd)
        (printed ("  Found " +:+ pretty (length (x :: rr)) +:+
                  " reservations in " +:+ region) w3) w3' E3 L3).
      destruct (scan_regions E rest (all ++ x :: rr) _ _) as [r4 w4].
      destruct (aggregate_spec E rest w3') as [[tail|e] w4']; simpl in *;
        [|done].
      destruct IH as (-> & ? & ?). split; [|done].
      by rewrite <- Hrr, <- !app_assoc.
Qed.

End Aggregation.

(** C8. The list the loop of [main] aggregates is the concatenation, over
    the regions in scan order, of the compute, database and savings-plan
    results of each region: the loop and [aggregate_spec] give the same
    list, or raise the same exception, and leave the environment and the
    call log in the same state. *)
Theorem scan_is_concatenation `{Runtime} {S} (E : Env S)
    (regions : list string) (w : world S) :
  fst <$> (scan_regions E regions [] ∅ w).1 = (aggregate_spec E regions w).1 /\
  env_state (scan_regions E regions [] ∅ w).2 =
    env_state (aggregate_spec E regions w).2 /\
  api_log (scan_regions E regions [] ∅ w).2 =
    api_log (aggregate_spec E regions w).2.
Proof.
  destruct (scan_concat_gen E regions [] ∅ w w eq_refl eq_refl) as (Hr & He & Hl).
  split; [|done]. rewrite Hr.
  by destruct (aggregate_spec E regions w).1.
Qed.

(** ** The region index *)

Lemma sorted_regions_elem (rwd : gset string) region :
  region ∈ sorted_regions rwd <-> region ∈ rwd.
Proof.
  unfold sorted_regions. rewrite merge_sort_Permutation. apply elem_of_elements.
Qed.

Lemma sorted_regions_sorted (rwd : gset string) :
  StronglySorted String.le (sorted_regions rwd).
Proof. apply StronglySorted_merge_sort; apply _. Qed.

Lemma sorted_regions_NoDup (rwd : gset string) : NoDup (sorted_regions rwd).
Proof.
  unfold sorted_regions. rewrite merge_sort_Permutation. apply NoDup_elements.
Qed.

Lemma for_each_print {S A} (xs : list A) (f : A -> string) (w : world S) :
  for_each xs (fun x => print (f x)) w =
  (Ok tt, World (env_state w) (stdout w ++ List.map f xs) (api_log w)).
Proof.
  revert w. induction xs as [|x xs IH]; intros w; simpl.
  - rewrite app_nil_r. by destruct w.
  - unfold mbind, M_bind, print at 1. rewrite IH. simpl.
    by rewrite <- app_assoc.
Qed.

(** What the index prints when some region has data: one line per region of
    [regions_with_data], in increasing order, with the number of aggregated
    records whose ['Region'] is that region. *)
Lemma print_region_index_lines {S} all (rwd : gset string) (w : world S) :
  rwd <> ∅ ->
  print_region_index all rwd w =
  (Ok tt,
   World (env_state w)
     (stdout w ++
      [nl +:+ str_mul "=" 80; "REGIONS WITH RESERVATIONS"; str_mul "=" 80] ++
      List.map (fun region =>
                  "  " +:+ region +:+ ": " +:+
                  pretty (region_count all region) +:+ " reservations")
               (sorted_regions rwd))
     (api_log w)).
Proof.
  intros Hne. unfold print_region_index, mbind, M_bind, print at 1 2 3.
  destruct (decide (rwd = ∅)) as [->|_]; [done|].
  rewrite for_each_print. simpl. by rewrite <- !app_assoc.
Qed.

Lemma fetcher_region `{Runtime} {S} (E : Env S) c region (w w' : world S) rs :
  c <> SubscriptionPlan ->
  fetcher E c region w = (Ok rs, w') ->
  Forall (fun r => dict_get r "Region" = Some (VStr region)) rs.
Proof.
  intros Hc. rewrite fetcher_run. unfold fetcher_outcome.
  destruct (provider_call E c region (env_state w)) as [[resp|e] s'].
  - destruct (subscript resp (listing_key c)) as [items|e]; simpl; [|done].
    intros [= Hmap _]. apply mapM_result_Ok in Hmap.
    induction Hmap as [|ri r items rs Hr _ IH]; constructor; [|done].
    by eapply normalise_region.
  - destruct (is_client_error e); [|done]. intros [= <- _]. constructor.
Qed.

(** Every aggregated record that is not a savings plan carries a region of
    the index as its ['Region']. *)
Lemma scan_regions_indexed `{Runtime} {S} (E : Env S) regions all rwd
    (w w' : world S) all' rwd' :
  Forall (indexed rwd) all ->
  scan_regions E regions all rwd w = (Ok (all', rwd'), w') ->
  Forall (indexed rwd') all'.
Proof.
  revert all rwd w. induction regions as [|region rest IH]; intros all rwd w Hall.
  - by intros [= <- <- _].
  - rewrite scan_regions_cons.
    destruct (fetcher E Compute _ _) as [[ec2|e] w1] eqn:H1; [|done].
    destruct (fetcher E Database _ _) as [[rds|e] w2] eqn:H2; [|done].
    destruct (fetcher E SubscriptionPlan _ _) as [[sp|e] w3] eqn:H3; [|done].
    apply fetcher_region in H1; [|done]. apply fetcher_region in H2; [|done].
    apply fetcher_typed in H3.
    assert (Hrr : Forall (indexed ({[region]} ∪ rwd)) ((ec2 ++ rds) ++ sp)).
    { repeat apply Forall_app_2.
      - eapply Forall_impl; [exact H1|]. intros r Hr. right. exists region.
        split; [set_solver|done].
      - eapply Forall_impl; [exact H2|]. intros r Hr. right. exists region.
        split; [set_solver|done].
      - eapply Forall_impl; [exact H3|]. intros r Hr. by left. }
    destruct ((ec2 ++ rds) ++ sp) as [|x rr] eqn:Hrr'.
    + by apply IH.
    + apply IH. apply Forall_app_2; [|done].
      eapply Forall_impl; [exact Hall|].
      intros r [Hr|(region' & Hin & Hr)]; [by left|].
      right. exists region'. split; [set_solver|done].
Qed.

(** C2, at the failing input: one region, [us-east-1], whose only record is
    a savings plan without a [region] field. One record is collected from
    the region and the region is in the index, but the index prints the
    count 0 for it. *)
Theorem region_index_misses_savings_plans :
  scan_regions plans_env ["us-east-1"] [] ∅ w0 =
    (Ok ([plan0_record], {["us-east-1"]}), plans_scan_world) /\
  print_region_index [plan0_record] {["us-east-1"]} plans_scan_world =
    (Ok tt,
     World tt
       (stdout plans_scan_world ++
        [ nl +:+ str_mul "=" 80; "REGIONS WITH RESERVATIONS"; str_mul "=" 80;
          "  us-east-1: 0 reservations" ])
       (api_log plans_scan_world)).
Proof. split; by vm_compute. Qed.

(** * Further properties of the script *)

(** ** [format_datetime] on every value *)

(** [format_datetime] returns text for a value that is falsy, text or a
    date, and raises [AttributeError] for every other value (a number that
    is not zero, [True]). *)
Theorem format_datetime_outcome (v : pyval) :
  if date_like v
  then exists s, format_datetime v = Ok (VStr s)
  else format_datetime v =
         Raise (AttributeError
                  ("'" +:+ type_name v +:+ "' object has no attribute 'strftime'")).
Proof.
  unfold date_like, format_datetime.
  destruct v as [|b|z|x|s|d]; simpl.
  - by exists "N/A".
  - destruct b; simpl; [done|by exists "N/A"].
  - destruct (z =? 0)%Z; simpl; [by exists "N/A"|done].
  - destruct (x =? 0)%float; simpl; [by exists "N/A"|done].
  - destruct (String.eqb s ""); simpl; [by exists "N/A"|by exists s].
  - by eexists.
Qed.

(** ** [get_all_regions] beyond the fallback *)

Lemma mapM_result_cons {A B} (f : A -> result B) x l :
  mapM f (x :: l) = (y ← f x; k ← mapM f l; mret (y :: k)).
Proof. reflexivity. Qed.

Lemma mapM_subscript_missing {V} (l : list (dict V)) k :
  Exists (fun d => dict_get d k = None) l ->
  mapM (fun d => subscript d k) l = Raise (KeyError k).
Proof.
  induction l as [|d l IH]; intros Hex; [by inversion Hex|].
  rewrite mapM_result_cons.
  destruct (dict_get d k) as [v|] eqn:Hd.
  - inversion Hex as [? ? Hhead|? ? Htail]; subst; [congruence|].
    rewrite IH by done. unfold subscript. by rewrite Hd.
  - unfold subscript. by rewrite Hd.
Qed.

(** When the listing of the regions succeeds and every entry has a
    ['RegionName'], [get_all_regions] returns the names in the order of the
    response, prints nothing and has called the provider once. *)
Theorem get_all_regions_listed {S} (E : Env S) (w : world S)
    (resp : dict (list (dict string))) (s' : S)
    (entries : list (dict string)) (names : list string) :
  describe_regions E (env_state w) = (Ok resp, s') ->
  dict_get resp "Regions" = Some entries ->
  Forall2 (fun entry name => dict_get entry "RegionName" = Some name)
          entries names ->
  get_all_regions E w =
    (Ok names, World s' (stdout w) (api_log w ++ [DescribeRegions])).
Proof.
  intros Hcall Hregions Hnames.
  unfold get_all_regions, try_except, mbind, M_bind, call, lift, subscript.
  rewrite Hcall, Hregions.
  assert (mapM (fun region : dict string =>
                  match dict_get region "RegionName" with
                  | Some v => Ok v
                  | None => Raise (KeyError "RegionName")
                  end) entries = Ok names) as ->; [|done].
  apply mapM_result_Ok.
  eapply Forall2_impl; [exact Hnames|]. intros entry name Hn. by rewrite Hn.
Qed.

Lemma get_all_regions_listed_witness :
  get_all_regions plans_env w0 = (Ok ["us-east-1"], World tt [] [DescribeRegions]).
Proof.
  apply (get_all_regions_listed plans_env w0
           [("Regions", [[("RegionName", "us-east-1")]])] tt
           [[("RegionName", "us-east-1")]] ["us-east-1"]);
    [reflexivity | reflexivity | by repeat constructor].
Defined.

(** The fallback is for provider errors only: an exception of the listing
    call that is not a [ClientError] leaves [get_all_regions], and nothing
    is printed. *)
Theorem get_all_regions_other_error {S} (E : Env S) (w : world S)
    (e : exn) (s' : S) :
  describe_regions E (env_state w) = (Raise e, s') ->
  is_client_error e = false ->
  get_all_regions E w =
    (Raise e, World s' (stdout w) (api_log w ++ [DescribeRegions])).
Proof.
  intros Hcall He.
  unfold get_all_regions, try_except, mbind, M_bind, call.
  by rewrite Hcall, He.
Qed.

Lemma get_all_regions_other_error_witness :
  get_all_regions offline_env w0 =
    (Raise (BotoCoreError "Could not connect to the endpoint URL"),
     World tt [] [DescribeRegions]).
Proof.
  apply (get_all_regions_other_error offline_env w0
           (BotoCoreError "Could not connect to the endpoint URL") tt);
    reflexivity.
Defined.

(** A response of the listing call without ['Regions'], or with an entry
    without ['RegionName'], makes [get_all_regions] raise [KeyError]: the
    fallback list is not used. *)
Theorem get_all_regions_malformed {S} (E : Env S) (w : world S)
    (resp : dict (list (dict string))) (s' : S) :
  describe_regions E (env_state w) = (Ok resp, s') ->
  match dict_get resp "Regions" with
  | None =>
      get_all_regions E w =
        (Raise (KeyError "Regions"),
         World s' (stdout w) (api_log w ++ [DescribeRegions]))
  | Some entries =>
      Exists (fun entry => dict_get entry "RegionName" = None) entries ->
      get_all_regions E w =
        (Raise (KeyError "RegionName"),
         World s' (stdout w) (api_log w ++ [DescribeRegions]))
  end.
Proof.
  intros Hcall.
  destruct (dict_get resp "Regions") as [entries|] eqn:Hregions.
  - intros Hex.
    assert (Hsub : subscript resp "Regions" = Ok entries).
    { unfold subscript. by rewrite Hregions. }
    unfold get_all_regions, try_except, mbind, M_bind, call, lift.
    by rewrite Hcall, Hsub, (mapM_subscript_missing entries "RegionName" Hex).
  - assert (Hsub : subscript resp "Regions" = Raise (KeyError "Regions")).
    { unfold subscript. by rewrite Hregions. }
    unfold get_all_regions, try_except, mbind, M_bind, call, lift.
    by rewrite Hcall, Hsub.
Qed.

Lemma get_all_regions_malformed_witness :
  get_all_regions nameless_region_env w0 =
    (Raise (KeyError "RegionName"), World tt [] [DescribeRegions]).
Proof.
  apply (get_all_regions_malformed nameless_region_env w0
           [("Regions", [[("Endpoint", "ec2.us-east-1.amazonaws.com")]])] tt
           eq_refl).
  by repeat constructor.
Defined.

(** ** One fetcher call, whatever the provider answers *)

Lemma fetcher_log `{Runtime} {S} (E : Env S) (c : category)
    (region : string) (w : world S) :
  api_log (fetcher E c region w).2 = api_log w ++ [api_of c region].
Proof.
  rewrite fetcher_run. unfold fetcher_outcome.
  destruct (provider_call E c region (env_state w)) as [[resp|e] s']; simpl;
    [done|]. by destruct (is_client_error e).
Qed.

(** A fetcher calls its provider operation exactly once, leaves the
    environment in the state that call gives, and prints nothing or one
    error line. *)
Theorem fetcher_one_call `{Runtime} {S} (E : Env S) (c : category)
    (region : string) (w : world S) :
  api_log (fetcher E c region w).2 = api_log w ++ [api_of c region] /\
  env_state (fetcher E c region w).2 =
    (provider_call E c region (env_state w)).2 /\
  (stdout (fetcher E c region w).2 = stdout w \/
   exists e, stdout (fetcher E c region w).2 = stdout w ++ [error_line c region e]).
Proof.
  rewrite fetcher_run. unfold fetcher_outcome.
  destruct (provider_call E c region (env_state w)) as [[resp|e] s']; simpl.
  - auto.
  - destruct (is_client_error e); simpl; [|auto].
    destruct (not_denied (error_code e)); eauto.
Qed.

(** ** The shape of a normalised record *)

Lemma dict_set_keys {V} (d : dict V) k v :
  List.map fst (dict_set d k v) = keys_add (List.map fst d) k.
Proof.
  induction d as [|[k0 v0] d IH]; simpl; [done|].
  destruct (String.eqb k0 k); simpl; [done|]. by rewrite IH.
Qed.

Lemma dict_literal_keys {V} (items : list (string * V)) :
  List.map fst (dict_literal items) = fold_left keys_add (List.map fst items) [].
Proof.
  unfold dict_literal.
  change (@nil string) with (List.map fst (@nil (string * V))).
  generalize (@nil (string * V)) as d.
  induction items as [|[k v] items IH]; intros d; simpl; [done|].
  by rewrite IH, dict_set_keys.
Qed.

Lemma dict_display_keys items r :
  dict_display items = Ok r ->
  List.map fst r = fold_left keys_add (List.map fst items) [].
Proof.
  unfold dict_display, fmap, result_fmap.
  destruct (mapM _ items) as [l|e] eqn:Hm; [|done].
  intros [= <-]. rewrite dict_literal_keys. f_equal.
  apply mapM_result_Ok in Hm.
  induction Hm as [|[k0 r0] [k1 v1] its kvs Hx _ IH]; simpl; [done|].
  simpl in Hx. destruct r0 as [v0|e]; [|done].
  injection Hx as <- <-. by rewrite IH.
Qed.

Lemma normalise_keys `{Runtime} c region ri r :
  normalise c region ri = Ok r -> List.map fst r = field_names c.
Proof.
  intros Hr. destruct c; simpl in Hr;
    by rewrite (dict_display_keys _ _ Hr).
Qed.

Lemma field_names_NoDup c : NoDup (field_names c).
Proof. destruct c; compute_done. Qed.

(** When the provider answers with a listing and the fetcher returns, it
    returns one record per provider record, and the keys of every record
    are the field names of its category, in the order of the dict display
    and without repetition. *)
Theorem fetcher_records_shape `{Runtime} {S} (E : Env S) (c : category)
    (region : string) (w w' : world S) (resp : response) (s' : S)
    (items : list raw) (rs : list record) :
  provider_call E c region (env_state w) = (Ok resp, s') ->
  subscript resp (listing_key c) = Ok items ->
  fetcher E c region w = (Ok rs, w') ->
  length rs = length items /\
  Forall (fun r => List.map fst r = field_names c /\ NoDup (List.map fst r)) rs.
Proof.
  intros Hcall Hitems. rewrite fetcher_run. unfold fetcher_outcome.
  rewrite Hcall, Hitems. simpl. intros [= Hmap _].
  apply mapM_result_Ok in Hmap. split.
  - symmetry. by eapply Forall2_length.
  - clear Hitems.
    induction Hmap as [|ri r items' rs' Hr _ IH]; [constructor|].
    constructor; [|done].
    apply normalise_keys in Hr. rewrite Hr.
    split; [done|apply field_names_NoDup].
Qed.

Lemma fetcher_records_shape_witness :
  length [plan0_record] = length [plan0] /\
  Forall (fun r => List.map fst r = field_names SubscriptionPlan /\
                   NoDup (List.map fst r)) [plan0_record].
Proof.
  apply (fetcher_records_shape plans_env SubscriptionPlan "us-east-1" w0
           (World tt [] [DescribeSavingsPlans "us-east-1"])
           [("savingsPlans", [plan0])] tt);
    reflexivity.
Defined.

(** ** When a provider record is accepted, and what is copied from it *)

Lemma format_datetime_Ok_date_like v t :
  format_datetime v = Ok t -> date_like v = true /\ exists s, t = VStr s.
Proof.
  unfold format_datetime, date_like.
  destruct v as [|b|z|x|s|d]; simpl.
  - intros [= <-]. eauto.
  - destruct b; [done|]. intros [= <-]. eauto.
  - destruct (z =? 0)%Z; simpl; [|done]. intros [= <-]. eauto.
  - destruct (x =? 0)%float; simpl; [|done]. intros [= <-]. eauto.
  - destruct (String.eqb s ""); simpl; intros [= <-]; eauto using orb_true_r.
  - intros [= <-]. eauto.
Qed.

(** Reads from [Hr : dict_display _ = Ok r] the item stored under [k]. *)
Ltac item_of Hr k :=
  let Hk := fresh "Hk" in
  pose proof (dict_display_get _ _ k Hr) as Hk;
  simpl in Hk;
  match type of Hk with
  | Ok <$> ?o = _ =>
      destruct o eqn:?; simpl in Hk; [injection Hk as Hk|discriminate Hk]
  end.

(** Proves [is_Some (dict_get ri native)] from the item stored under [k]. *)
Ltac present_by Hr k :=
  let Hk := fresh "Hk" in
  pose proof (dict_display_get _ _ k Hr) as Hk;
  simpl in Hk;
  match type of Hk with
  | Ok <$> ?o = _ =>
      destruct o; simpl in Hk; [injection Hk as Hk|discriminate Hk]
  end;
  unfold subscript, mbind, result_bind in Hk;
  revert Hk;
  repeat match goal with
         | |- context [dict_get ?ri ?n] => destruct (dict_get ri n)
         end;
  intros Hk; try discriminate Hk; eauto.

Ltac present_any Hr ks :=
  lazymatch ks with
  | ?k :: ?ks' => first [ solve [present_by Hr k] | present_any Hr ks' ]
  end.

Lemma normalise_required `{Runtime} c region ri r :
  normalise c region ri = Ok r ->
  Forall (fun k => is_Some (dict_get ri k)) (required_fields c).
Proof.
  intros Hr.
  destruct c; simpl in Hr; simpl;
    repeat (apply Forall_cons; split;
            [ let ks := eval cbv [field_names app] in
                    (field_names Compute ++ field_names Database ++
                     field_names SubscriptionPlan) in
              present_any Hr ks |]);
    apply Forall_nil_2.
Qed.

Lemma normalise_dates `{Runtime} c region ri r :
  normalise c region ri = Ok r ->
  Forall (fun f => date_like (get_or_none ri f.1) = true /\
                   exists s, dict_get r f.2 = Some (VStr s))
         (date_fields c).
Proof.
  intros Hr.
  destruct c; simpl in Hr; simpl;
    repeat (apply Forall_cons; split;
            [ cbn [fst snd];
              match goal with
              | |- _ /\ exists s, dict_get _ ?k = _ => item_of Hr k
              end;
              symmetry in Hk;
              apply format_datetime_Ok_date_like in Hk as [Hlike [s ->]];
              eauto |]);
    apply Forall_nil_2.
Qed.

Lemma date_like_formats v :
  date_like v = true -> exists s, format_datetime v = Ok (VStr s).
Proof.
  unfold format_datetime, date_like.
  destruct v as [|b|z|x|s|d]; simpl; eauto.
  - destruct b; simpl; [done|eauto].
  - destruct (z =? 0)%Z; simpl; [eauto|done].
  - destruct (x =? 0)%float; simpl; [eauto|done].
  - destruct (String.eqb s ""); simpl; eauto.
Qed.

Lemma subscript_present {V} (d : dict V) k :
  is_Some (dict_get d k) -> exists v, subscript d k = Ok v.
Proof. intros [v Hv]. exists v. unfold subscript. by rewrite Hv. Qed.

(** A provider record is normalised into a record exactly when it has every
    field the dict display subscripts and each of its date fields is
    missing, falsy, text or a date. Otherwise the dict display raises. *)
Theorem normalise_succeeds_iff `{Runtime} (c : category) (region : string)
    (ri : raw) :
  (exists r, normalise c region ri = Ok r) <->
  Forall (fun k => is_Some (dict_get ri k)) (required_fields c) /\
  Forall (fun f => date_like (get_or_none ri f.1) = true) (date_fields c).
Proof.
  split.
  - intros [r Hr]. split; [by eapply normalise_required|].
    eapply Forall_impl; [by eapply normalise_dates|]. by intros f [Hf _].
  - intros [Hreq Hdates].
    destruct c; simpl in Hreq, Hdates;
      repeat match goal with
             | Hf : Forall _ (_ :: _) |- _ =>
                 apply Forall_cons in Hf as [? Hf]
             end;
      repeat match goal with
             | Hp : is_Some (dict_get _ _) |- _ =>
                 apply subscript_present in Hp as [? Hp]
             | Hd : date_like _ = true |- _ =>
                 apply date_like_formats in Hd as [? Hd]
             end;
      simpl in *;
      unfold normalise, ec2_record, rds_record, sp_record, dict_display;
      repeat match goal with
             | Hp : subscript _ _ = Ok _ |- _ => rewrite Hp; clear Hp
             | Hd : format_datetime _ = Ok _ |- _ => rewrite Hd; clear Hd
             end;
      simpl; eauto.
Qed.

(** A normalised record holds, under the normalised name, the provider's
    value of every field the dict display copies: the subscripted fields
    always, the optional ones when the provider gives them. *)
Theorem normalise_copies `{Runtime} (c : category) (region : string)
    (ri : raw) (r : record) :
  normalise c region ri = Ok r ->
  Forall (fun f => is_Some (dict_get ri f.1) /\
                   dict_get r f.2 = dict_get ri f.1) (mandatory_copies c) /\
  Forall (fun f => forall v, dict_get ri f.1 = Some v ->
                             dict_get r f.2 = Some v) (optional_copies c).
Proof.
  intros Hr. split.
  - destruct c; simpl in Hr; simpl;
      repeat (apply Forall_cons; split;
              [ cbn [fst snd];
                match goal with
                | |- _ /\ dict_get _ ?k = _ => item_of Hr k
                end;
                unfold subscript in Hk;
                match type of Hk with
                | context [dict_get ?d ?n] =>
                    destruct (dict_get d n); [|discriminate Hk]
                end;
                injection Hk as ->; eauto |]);
      apply Forall_nil_2.
  - destruct c; simpl in Hr; simpl;
      repeat (apply Forall_cons; split;
              [ cbn [fst snd]; intros v Hv;
                match goal with
                | |- dict_get _ ?k = _ => item_of Hr k
                end;
                unfold dict_get_default in Hk; rewrite Hv in Hk;
                by subst |]);
      apply Forall_nil_2.
Qed.

Lemma normalise_copies_witness :
  Forall (fun f => is_Some (dict_get instance0 f.1) /\
                   dict_get instance0_record f.2 = dict_get instance0 f.1)
         (mandatory_copies Compute) /\
  Forall (fun f => forall v, dict_get instance0 f.1 = Some v ->
                             dict_get instance0_record f.2 = Some v)
         (optional_copies Compute).
Proof.
  apply (normalise_copies Compute "us-east-1" instance0 instance0_record).
  reflexivity.
Defined.

(** ** A malformed provider record *)

Lemma mapM_result_Raise {A B} (f : A -> result B) good bad rest e :
  Forall (fun x => exists y, f x = Ok y) good ->
  f bad = Raise e ->
  mapM f (good ++ bad :: rest) = Raise e.
Proof.
  intros Hgood Hbad. induction Hgood as [|x good [y Hy] _ IH].
  - simpl app. rewrite mapM_result_cons. by rewrite Hbad.
  - simpl app. rewrite mapM_result_cons. by rewrite Hy, IH.
Qed.

(** One provider record that the dict display rejects makes the fetcher
    raise that exception: the records normalised before it are dropped and
    nothing is printed. *)
Theorem fetcher_malformed_record `{Runtime} {S} (E : Env S) (c : category)
    (region : string) (w : world S) (resp : response) (s' : S)
    (good rest : list raw) (bad : raw) (e : exn) :
  provider_call E c region (env_state w) = (Ok resp, s') ->
  subscript resp (listing_key c) = Ok (good ++ bad :: rest) ->
  Forall (fun ri => exists r, normalise c region ri = Ok r) good ->
  normalise c region bad = Raise e ->
  fetcher E c region w =
    (Raise e, World s' (stdout w) (api_log w ++ [api_of c region])).
Proof.
  intros Hcall Hitems Hgood Hbad.
  rewrite fetcher_run. unfold fetcher_outcome. rewrite Hcall, Hitems. simpl.
  by rewrite (mapM_result_Raise _ good bad rest e Hgood Hbad).
Qed.

Lemma fetcher_malformed_record_witness :
  fetcher malformed_env Compute "us-east-1" w0 =
    (Raise (KeyError "State"),
     World tt [] [DescribeReservedInstances "us-east-1"]).
Proof.
  apply (fetcher_malformed_record malformed_env Compute "us-east-1" w0
           [("ReservedInstances", [instance0; stateless_instance])] tt
           [instance0] [] stateless_instance (KeyError "State"));
    [ reflexivity | reflexivity
    | constructor; [by exists instance0_record | constructor]
    | reflexivity ].
Defined.

(** ** The scan: calls, index set and aggregated list *)

Section ScanFacts.
Context `{Runtime} {S : Type} (E : Env S).

(** A scan that completes has made exactly the three listing calls of each
    region, compute, database, savings plans, in the order of the regions,
    whatever the accumulators it started from. *)
Theorem scan_calls (regions : list string) (all : list record)
    (rwd : gset string) (w w' : world S) (all' : list record)
    (rwd' : gset string) :
  scan_regions E regions all rwd w = (Ok (all', rwd'), w') ->
  api_log w' = api_log w ++ flat_map region_calls regions.
Proof.
  revert all rwd w. induction regions as [|region rest IH]; intros all rwd w.
  - intros [= _ _ <-]. simpl. by rewrite app_nil_r.
  - rewrite scan_regions_cons.
    set (wp := printed (nl +:+ "Checking region: " +:+ region) w).
    pose proof (fetcher_log E Compute region wp) as L1.
    destruct (fetcher E Compute region wp) as [[ec2|e] w1]; [|done].
    pose proof (fetcher_log E Database region w1) as L2.
    destruct (fetcher E Database region w1) as [[rds|e] w2]; [|done].
    pose proof (fetcher_log E SubscriptionPlan region w2) as L3.
    destruct (fetcher E SubscriptionPlan region w2) as [[sp|e] w3]; [|done].
    simpl in L1, L2, L3.
    destruct ((ec2 ++ rds) ++ sp); intros Hscan; apply IH in Hscan;
      rewrite Hscan; simpl; rewrite L3, L2, L1; simpl;
      by rewrite <- !app_assoc.
Qed.

Lemma scan_regions_data regions all rwd (w w' : world S) all' rwd' :
  (all = [] <-> rwd = ∅) ->
  scan_regions E regions all rwd w = (Ok (all', rwd'), w') ->
  (all' = [] <-> rwd' = ∅) /\
  (forall region, region ∈ rwd' -> region ∈ rwd \/ region ∈ regions).
Proof.
  revert all rwd w. induction regions as [|region rest IH]; intros all rwd w Hinv.
  - intros [= <- <- _]. split; [done|auto].
  - rewrite scan_regions_cons.
    destruct (fetcher E Compute _ _) as [[ec2|e] w1]; [|done].
    destruct (fetcher E Database _ _) as [[rds|e] w2]; [|done].
    destruct (fetcher E SubscriptionPlan _ _) as [[sp|e] w3]; [|done].
    destruct ((ec2 ++ rds) ++ sp) as [|x rr]; intros Hscan.
    + apply IH in Hscan as [Hiff Hsub]; [|done]. split; [done|].
      intros region' Hin. destruct (Hsub region' Hin); [by left|].
      right. by apply elem_of_cons; right.
    + apply IH in Hscan as [Hiff Hsub].
      * split; [done|]. intros region' Hin.
        destruct (Hsub region' Hin) as [Hu|Hr].
        -- apply elem_of_union in Hu as [->%elem_of_singleton|Hu];
             [right; by apply elem_of_cons; left | by left].
        -- right. by apply elem_of_cons; right.
      * split.
        -- intros Happ. by apply app_eq_nil in Happ as [_ ?].
        -- intros Hempty. exfalso.
           apply (not_elem_of_empty (C:=gset string) region).
           rewrite <- Hempty. apply elem_of_union_l. by apply elem_of_singleton.
Qed.

End ScanFacts.

Lemma scan_calls_witness :
  api_log plans_scan_world = api_log w0 ++ flat_map region_calls ["us-east-1"].
Proof.
  exact (scan_calls plans_env ["us-east-1"] [] ∅ w0 plans_scan_world
           [plan0_record] {["us-east-1"]} plans_scan).
Defined.

(** After a scan, the set of regions with data is empty exactly when the
    aggregated list is empty, and it holds scanned regions only. *)
Theorem scan_regions_with_data `{Runtime} {S} (E : Env S)
    (regions : list string) (w w' : world S)
    (all : list record) (rwd : gset string) :
  scan_regions E regions [] ∅ w = (Ok (all, rwd), w') ->
  (all = [] <-> rwd = ∅) /\
  (forall region, region ∈ rwd -> region ∈ regions).
Proof.
  intros Hscan.
  destruct (scan_regions_data E regions [] ∅ w w' all rwd) as [Hiff Hsub];
    [done|done|].
  split; [done|]. intros region Hin.
  destruct (Hsub region Hin) as [Hempty|?]; [|done].
  by apply not_elem_of_empty in Hempty.
Qed.

Lemma scan_regions_with_data_witness :
  ([plan0_record] = [] <-> ({["us-east-1"]} : gset string) = ∅) /\
  (forall region, region ∈ ({["us-east-1"]} : gset string) ->
                  region ∈ ["us-east-1"]).
Proof.
  exact (scan_regions_with_data plans_env ["us-east-1"] w0 plans_scan_world
           [plan0_record] {["us-east-1"]} plans_scan).
Defined.

(** ** The region index and the records it counts *)

(** The scan of one region with one compute reservation. *)
Lemma instances_scan :
  scan_regions instances_env ["us-east-1"] [] ∅ w0 =
    (Ok ([instance0_record], {["us-east-1"]}), instances_scan_world).
Proof. by vm_compute. Qed.

(** Every aggregated record that is not a savings plan carries as its
    ['Region'] a region of the index. *)
Theorem aggregated_regions_indexed `{Runtime} {S} (E : Env S)
    (regions : list string) (w w' : world S)
    (all : list record) (rwd : gset string) :
  scan_regions E regions [] ∅ w = (Ok (all, rwd), w') ->
  Forall (fun r => not_a_plan r ->
                   exists region, region ∈ rwd /\
                                  dict_get r "Region" = Some (VStr region)) all.
Proof.
  intros Hscan.
  eapply Forall_impl;
    [eapply scan_regions_indexed; [|exact Hscan]; constructor|].
  intros r [Hplan|Hregion] Hnot; [by destruct Hnot|done].
Qed.

Lemma aggregated_regions_indexed_witness :
  Forall (fun r => not_a_plan r ->
                   exists region, region ∈ ({["us-east-1"]} : gset string) /\
                                  dict_get r "Region" = Some (VStr region))
         [instance0_record].
Proof.
  exact (aggregated_regions_indexed instances_env ["us-east-1"] w0
           instances_scan_world [instance0_record] {["us-east-1"]}
           instances_scan).
Defined.

Lemma region_count_cons r all region :
  region_count (r :: all) region =
  Nat.b2n (opt_eq_str (dict_get r "Region") region) + region_count all region.
Proof.
  unfold region_count. simpl.
  by destruct (opt_eq_str (dict_get r "Region") region).
Qed.

Lemma one_region_matches (regions : list string) region :
  NoDup regions -> region ∈ regions ->
  sum_list (List.map (fun x => Nat.b2n (String.eqb region x)) regions) = 1.
Proof.
  induction 1 as [|x regions Hx Hnd IH]; intros Hin; [by inversion Hin|].
  simpl. destruct (String.eqb_spec region x) as [->|Hne]; simpl.
  - f_equal. clear IH Hin. induction regions as [|y regions IH]; [done|].
    simpl. destruct (String.eqb_spec x y) as [->|_].
    + exfalso. apply Hx. by left.
    + apply IH; [|by inversion Hnd]. intros Hin. apply Hx. by right.
  - apply IH. by apply elem_of_cons in Hin as [?|?].
Qed.

Lemma region_counts_add_up (all : list record) (regions : list string) :
  NoDup regions ->
  Forall (fun r => exists region, region ∈ regions /\
                                  dict_get r "Region" = Some (VStr region)) all ->
  sum_list (List.map (region_count all) regions) = length all.
Proof.
  intros Hnd. induction 1 as [|r all (region & Hin & Hr) _ IH].
  - induction regions as [|x regions IHr]; [done|].
    simpl. apply IHr. by inversion Hnd.
  - assert (Hsplit :
      sum_list (List.map (region_count (r :: all)) regions) =
      sum_list (List.map (fun x => Nat.b2n (String.eqb region x)) regions) +
      sum_list (List.map (region_count all) regions)).
    { clear IH Hin Hnd. induction regions as [|x regions IHr]; [done|].
      simpl. rewrite region_count_cons, Hr, IHr. simpl. lia. }
    rewrite Hsplit, IH, (one_region_matches regions region Hnd Hin). done.
Qed.

(** When no savings plan was collected, the counts of the region index add
    up to the number of aggregated records: every compute and database
    record is counted once, under the region it was scanned in. *)
Theorem index_counts_add_up `{Runtime} {S} (E : Env S)
    (regions : list string) (w w' : world S)
    (all : list record) (rwd : gset string) :
  scan_regions E regions [] ∅ w = (Ok (all, rwd), w') ->
  Forall not_a_plan all ->
  sum_list (List.map (region_count all) (sorted_regions rwd)) = length all.
Proof.
  intros Hscan Hnot.
  apply region_counts_add_up; [apply sorted_regions_NoDup|].
  assert (Hidx : Forall (indexed rwd) all).
  { eapply scan_regions_indexed; [|exact Hscan]. constructor. }
  rewrite Forall_forall in Hidx, Hnot. apply Forall_forall. intros r Hr.
  destruct (Hidx r Hr) as [Hplan|(region & Hin & Hreg)];
    [by destruct (Hnot r Hr)|].
  exists region. split; [by apply sorted_regions_elem|done].
Qed.

Lemma index_counts_add_up_witness :
  sum_list (List.map (region_count [instance0_record])
                     (sorted_regions {["us-east-1"]})) =
  length [instance0_record].
Proof.
  apply (index_counts_add_up instances_env ["us-east-1"] w0
           instances_scan_world [instance0_record] {["us-east-1"]}
           instances_scan).
  constructor; [discriminate|constructor].
Defined.

Lemma region_index_run {S} (all : list record) (rwd : gset string)
    (w : world S) :
  print_region_index all rwd w =
    (Ok tt,
     World (env_state w) (stdout w ++ index_lines all rwd) (api_log w)).
Proof.
  unfold print_region_index, index_lines, mbind, M_bind, print at 1 2 3.
  destruct (decide (rwd = ∅)) as [Heq|Hne].
  - unfold print, printed. simpl. by rewrite <- !app_assoc.
  - rewrite for_each_print. simpl. by rewrite <- !app_assoc.
Qed.

(** The region index prints its three heading lines and then, when no
    region has data, one line saying so; otherwise one line per region with
    data, each region once, in increasing order, with the number of
    aggregated records whose ['Region'] is that region. It never raises. *)
Theorem region_index_printed {S} (all : list record) (rwd : gset string)
    (w : world S) :
  print_region_index all rwd w =
    (Ok tt,
     World (env_state w)
       (stdout w ++
        [nl +:+ str_mul "=" 80; "REGIONS WITH RESERVATIONS"; str_mul "=" 80] ++
        (if decide (rwd = ∅) then ["No regions found with reservations"]
         else List.map (index_line all) (sorted_regions rwd)))
       (api_log w)) /\
  StronglySorted String.le (sorted_regions rwd) /\
  NoDup (sorted_regions rwd) /\
  (forall region, region ∈ sorted_regions rwd <-> region ∈ rwd).
Proof.
  split; [apply region_index_run|].
  split; [apply sorted_regions_sorted|].
  split; [apply sorted_regions_NoDup|apply sorted_regions_elem].
Qed.

(** ** The summary on a record without ['Type'] *)

Lemma select_type_untyped label all :
  Exists (fun r => dict_get r "Type" = None) all ->
  select_type label all = Raise (KeyError "Type").
Proof.
  induction all as [|r all IH]; intros Hex; [by inversion Hex|].
  simpl. unfold subscript.
  destruct (dict_get r "Type") as [t|] eqn:Ht; [|done].
  inversion Hex as [? ? Hhead|? ? Htail]; subst; [congruence|].
  simpl. rewrite IH by done. by destruct (py_eq_str t label).
Qed.

(** [print_summary] reads ['Type'] with a subscript: on a list that holds a
    record without ['Type'] it raises [KeyError] and prints nothing. *)
Theorem print_summary_untyped {S} (all : list record) (w : world S) :
  Exists (fun r => dict_get r "Type" = None) all ->
  print_summary all w = (Raise (KeyError "Type"), w).
Proof.
  intros Hex. unfold print_summary, mbind at 1, M_bind, lift.
  by rewrite select_type_untyped.
Qed.

Lemma print_summary_untyped_witness :
  print_summary [plan0_record; untyped_record] w0 = (Raise (KeyError "Type"), w0).
Proof.
  apply print_summary_untyped. right. left. reflexivity.
Defined.

(** ** The detailed report *)

Lemma for_each_lines {S A} (xs : list A) (body : A -> M S unit)
    (lines : A -> list string) (w : world S) :
  Forall (fun x => forall w1, body x w1 =
            (Ok tt, World (env_state w1) (stdout w1 ++ lines x) (api_log w1))) xs ->
  for_each xs body w =
  (Ok tt, World (env_state w) (stdout w ++ flat_map lines xs) (api_log w)).
Proof.
  intros Hall. revert w. induction Hall as [|x xs Hx _ IH]; intros w; simpl.
  - rewrite app_nil_r. by destruct w.
  - unfold mbind, M_bind. rewrite Hx, IH. simpl. by rewrite <- app_assoc.
Qed.

Lemma record_fields_printed `{Runtime} {S} (r : record) (w : world S) :
  for_each r (fun kv =>
    if negb (String.eqb (fst kv) "Type")
    then print ("  " +:+ fst kv +:+ ": " +:+ py_str (snd kv))
    else mret tt) w =
  (Ok tt,
   World (env_state w)
     (stdout w ++
      List.map (fun kv => "  " +:+ fst kv +:+ ": " +:+ py_str (snd kv))
        (List.filter (fun kv => negb (String.eqb (fst kv) "Type")) r))
     (api_log w)).
Proof.
  revert w. induction r as [|kv r IH]; intros w; simpl.
  - rewrite app_nil_r. by destruct w.
  - unfold mbind, M_bind.
    destruct (negb (String.eqb kv.1 "Type")); simpl.
    + unfold print at 1. rewrite IH. simpl. by rewrite <- app_assoc.
    + unfold mret, M_ret. by rewrite IH.
Qed.

Lemma detailed_report_run `{Runtime} {S} (all : list record)
    (w : world S) :
  Forall (fun r => is_Some (dict_get r "Type")) all ->
  print_detailed_report all w =
    (Ok tt,
     World (env_state w) (stdout w ++ detailed_lines all) (api_log w)).
Proof.
  intros Hall. destruct all as [|r0 all0]; [done|].
  unfold print_detailed_report, detailed_lines.
  remember (r0 :: all0) as all eqn:Hall_eq. clear Hall_eq.
  unfold mbind at 1 2 3, M_bind, print at 1 2 3.
  rewrite (for_each_lines all _
             (fun r => record_lines (dict_get_default r "Type" VNone) r)).
  - simpl. by rewrite <- !app_assoc.
  - eapply Forall_impl; [exact Hall|]. intros r [t Ht] w1.
    unfold mbind, M_bind, lift, subscript, dict_get_default. rewrite Ht.
    unfold print at 1 2. rewrite record_fields_printed.
    unfold record_lines, printed. simpl. by rewrite <- !app_assoc.
Qed.

(** On a list whose records all have a ['Type'], the detailed report does
    not raise. For the empty list it prints the one line that nothing was
    found; otherwise its three heading lines and, record by record in list
    order, the ['Type'] as a heading, a rule, and every other field in the
    insertion order of the record. *)
Theorem detailed_report_printed `{Runtime} {S} (all : list record)
    (w : world S) :
  Forall (fun r => is_Some (dict_get r "Type")) all ->
  print_detailed_report all w =
    (Ok tt,
     World (env_state w) (stdout w ++ detailed_lines all) (api_log w)).
Proof. apply detailed_report_run. Qed.

Lemma detailed_report_printed_witness :
  print_detailed_report [plan0_record] w0 =
    (Ok tt, World tt ([] ++ detailed_lines [plan0_record]) []).
Proof.
  apply (detailed_report_printed [plan0_record] w0).
  constructor; [by eexists|constructor].
Defined.

(** ** Saving the report *)

Lemma save_to_json_run `{JsonLib} {S} (E : Env S) (all : list record)
    (filename : string) (w : world S) :
  save_to_json E all filename w =
    (Ok tt,
     World (write_file E filename (json_dumps all) (env_state w)).2
       (stdout w ++
        [save_line filename
           (write_file E filename (json_dumps all) (env_state w)).1])
       (api_log w ++ [WriteFile filename])).
Proof.
  unfold save_to_json, try_except, mbind, M_bind, call.
  by destruct (write_file E filename (json_dumps all) (env_state w))
    as [[[]|e] s'].
Qed.

(** [save_to_json] never raises. It asks once for the file to be written,
    with the serialised list, and prints one line: that the report was
    saved, or the error of the write. *)
Theorem save_to_json_outcome `{JsonLib} {S} (E : Env S) (all : list record)
    (filename : string) (w : world S) :
  save_to_json E all filename w =
    (Ok tt,
     World (write_file E filename (json_dumps all) (env_state w)).2
       (stdout w ++
        [save_line filename
           (write_file E filename (json_dumps all) (env_state w)).1])
       (api_log w ++ [WriteFile filename])).
Proof. apply save_to_json_run. Qed.

(** ** [main] *)

Section Main.
Context `{Runtime} `{JsonLib} {S : Type} (E : Env S).

Lemma main_run (w : world S) : main E w = main_outcome E w.
Proof.
  assert (Hreport : forall (e : exn) (w' : world S),
    (if match e with NoCredentialsError => true | _ => false end
     then (_ ← print "Error: AWS credentials not found. Please configure your AWS credentials.";
           print "You can use: aws configure, environment variables, or IAM roles.") w'
     else (Raise e, w')) =
    (match e with
     | NoCredentialsError =>
         (Ok tt, World (env_state w') (stdout w' ++ failure_lines e) (api_log w'))
     | _ => (Raise e, w')
     end)).
  { intros e w'. destruct e; try done.
    unfold mbind, M_bind, print, printed. simpl. by rewrite <- app_assoc. }
  assert (Hfinish : forall (e : exn) (w' : world S),
    (let (r, w'') :=
       if match e with NoCredentialsError => true | _ => false end
       then (_ ← print "Error: AWS credentials not found. Please configure your AWS credentials.";
             print "You can use: aws configure, environment variables, or IAM roles.") w'
       else (Raise e, w') in
     match r with
     | Ok a => (Ok a, w'')
     | Raise e0 => print ("An unexpected error occurred: " +:+ exn_str e0) w''
     end) =
    (Ok tt, World (env_state w') (stdout w' ++ failure_lines e) (api_log w'))).
  { intros e w'. rewrite Hreport. by destruct e. }
  assert (Hbind : forall A B (m : M S A) (f : A -> M S B) (w1 : world S),
    (m ≫= f) w1 = match m w1 with
                  | (Ok a, w2) => f a w2
                  | (Raise e, w2) => (Raise e, w2)
                  end) by reflexivity.
  assert (Hprint : forall line (w1 : world S),
    print line w1 = (Ok tt, printed line w1)) by reflexivity.
  unfold main, main_outcome, reported.
  unfold try_except at 1 2.
  rewrite Hbind. unfold call at 1.
  destruct (get_caller_identity E (env_state w)) as [[info|e] s1];
    [|exact (Hfinish e (World s1 (stdout w) (api_log w ++ [GetCallerIdentity])))].
  cbn [mbind result_bind].
  rewrite Hbind. unfold lift at 1.
  destruct (subscript info "Account") as [account_id|e];
    [|exact (Hfinish e (World s1 (stdout w) (api_log w ++ [GetCallerIdentity])))].
  do 3 (rewrite Hbind, Hprint; cbv beta iota).
  rewrite Hbind; cbv beta iota.
  do 2 (rewrite Hbind, Hprint; cbv beta iota).
  rewrite Hbind.
  match goal with
  | |- context [get_all_regions E (printed ?l ?W)] =>
      replace (printed l W)
        with (World s1 (stdout w ++ header_lines account_id (clock_now E s1))
                    (api_log w ++ [GetCallerIdentity]))
        by (unfold printed, header_lines; simpl; by rewrite <- !app_assoc)
  end.
  cbn [api_log].
  destruct (get_all_regions E _) as [[regions|e] w3]; [|apply Hfinish].
  rewrite Hbind, Hprint; cbv beta iota. rewrite Hbind.
  destruct (scan_regions E regions [] ∅ _) as [[[all rwd]|e] w4];
    [|apply Hfinish].
  cbn [fst snd]. rewrite Hbind.
  destruct (print_region_index all rwd w4) as [[[]|e] w5]; [|apply Hfinish].
  rewrite Hbind.
  destruct (print_summary all w5) as [[[]|e] w6]; [|apply Hfinish].
  rewrite Hbind.
  destruct (print_detailed_report all w6) as [[[]|e] w7]; [|apply Hfinish].
  destruct (save_to_json E all "aws_reservations_report.json" w7)
    as [[[]|e] w8]; [done|apply Hfinish].
Qed.

End Main.

Lemma print_summary_typed {S} (all : list record) (w : world S) :
  Forall typed all ->
  print_summary all w =
    (Ok tt, World (env_state w) (stdout w ++ summary_of all) (api_log w)).
Proof.
  intros Hall. unfold print_summary, mbind, M_bind, lift.
  rewrite !select_type_typed by done.
  unfold print, printed, summary_of, summary_lines, type_count. simpl.
  by rewrite <- !app_assoc.
Qed.

Lemma typed_has_type r : typed r -> is_Some (dict_get r "Type").
Proof. intros [c Hc]. by eexists. Qed.

(** The calls a run makes before it writes the file only read. *)
Lemma only_reads_same {S} (w w' : world S) :
  api_log w' = api_log w -> only_reads w w'.
Proof. intros Hlog. exists []. split; [by rewrite app_nil_r|constructor]. Qed.

Lemma only_reads_refl {S} (w : world S) : only_reads w w.
Proof. by apply only_reads_same. Qed.

Lemma only_reads_trans {S} (w1 w2 w3 : world S) :
  only_reads w1 w2 -> only_reads w2 w3 -> only_reads w1 w3.
Proof.
  intros (c1 & H1 & F1) (c2 & H2 & F2). exists (c1 ++ c2). split.
  - by rewrite H2, H1, <- app_assoc.
  - by apply Forall_app_2.
Qed.

Lemma only_reads_call {S} (w w' : world S) (c : api_call) :
  is_write c = false -> api_log w' = api_log w ++ [c] -> only_reads w w'.
Proof. intros Hc Hlog. exists [c]. split; [done|]. by repeat constructor. Qed.

Lemma get_all_regions_log {S} (E : Env S) (w : world S) :
  api_log (get_all_regions E w).2 = api_log w ++ [DescribeRegions].
Proof.
  unfold get_all_regions, try_except, mbind, M_bind, call, lift.
  destruct (describe_regions E (env_state w)) as [[resp|e] s'].
  - destruct (subscript resp "Regions") as [regions|e].
    + destruct (mapM _ regions) as [names|e]; [done|].
      by destruct (is_client_error e).
    + by destruct (is_client_error e).
  - by destruct (is_client_error e).
Qed.

Lemma fetcher_only_reads `{Runtime} {S} (E : Env S) (c : category)
    (region : string) (w : world S) :
  only_reads w (fetcher E c region w).2.
Proof.
  apply (only_reads_call _ _ (api_of c region)); [by destruct c|].
  apply fetcher_log.
Qed.

(** Whether the scan completes or an exception leaves it, it has written
    no file. *)
Lemma scan_regions_only_reads `{Runtime} {S} (E : Env S)
    (regions : list string) (all : list record) (rwd : gset string)
    (w : world S) :
  only_reads w (scan_regions E regions all rwd w).2.
Proof.
  revert all rwd w. induction regions as [|region rest IH]; intros all rwd w.
  - apply only_reads_refl.
  - rewrite scan_regions_cons.
    set (wp := printed (nl +:+ "Checking region: " +:+ region) w).
    assert (R0 : only_reads w wp) by (by apply only_reads_same).
    pose proof (fetcher_only_reads E Compute region wp) as R1.
    destruct (fetcher E Compute region wp) as [[ec2|e] w1];
      [|exact (only_reads_trans _ _ _ R0 R1)].
    pose proof (fetcher_only_reads E Database region w1) as R2.
    destruct (fetcher E Database region w1) as [[rds|e] w2];
      [|exact (only_reads_trans _ _ _ R0 (only_reads_trans _ _ _ R1 R2))].
    pose proof (fetcher_only_reads E SubscriptionPlan region w2) as R3.
    assert (R : forall w3, only_reads w2 w3 -> only_reads w w3).
    { intros w3 R'.
      exact (only_reads_trans _ _ _ R0
               (only_reads_trans _ _ _ R1 (only_reads_trans _ _ _ R2 R'))). }
    destruct (fetcher E SubscriptionPlan region w2) as [[sp|e] w3];
      [|exact (R _ R3)].
    destruct ((ec2 ++ rds) ++ sp);
      (eapply only_reads_trans; [|apply IH]);
      apply R; (eapply only_reads_trans; [exact R3|]); by apply only_reads_same.
Qed.

(** [main] never raises, and what it prints last tells how the run ended.
    An exception can leave the [try] block from four stages only: the
    identity call, the lookup of the account, the listing of the regions
    and the scan. [main] then prints, after what the run had printed, the
    lines of the [except] clause for that exception, two lines about
    credentials for [NoCredentialsError] and one line for any other, and
    the run has written no file. When the scan completes, the three views
    and the save raise nothing: the run prints them and ends with the one
    file write and its line. *)
Theorem main_never_raises `{Runtime} `{JsonLib} {S} (E : Env S) (w : world S) :
  (main E w).1 = Ok tt /\
  let (identity, s1) := get_caller_identity E (env_state w) in
  match identity ≫= (fun info => subscript info "Account") with
  | Raise e =>
      main E w =
        (Ok tt,
         World s1 (stdout w ++ failure_lines e)
               (api_log w ++ [GetCallerIdentity]))
  | Ok account_id =>
      match get_all_regions E (after_header E w s1 account_id) with
      | (Raise e, w3) =>
          only_reads w w3 /\
          main E w =
            (Ok tt,
             World (env_state w3) (stdout w3 ++ failure_lines e) (api_log w3))
      | (Ok regions, w3) =>
          match scan_regions E regions [] ∅ (before_scan regions w3) with
          | (Raise e, w4) =>
              only_reads w w4 /\
              main E w =
                (Ok tt,
                 World (env_state w4) (stdout w4 ++ failure_lines e)
                       (api_log w4))
          | (Ok (all, rwd), w4) =>
              only_reads w w4 /\
              main E w =
                (Ok tt,
                 World
                   (write_file E "aws_reservations_report.json"
                               (json_dumps all) (env_state w4)).2
                   (stdout w4 ++ index_lines all rwd ++ summary_of all ++
                    detailed_lines all ++
                    [save_line "aws_reservations_report.json"
                       (write_file E "aws_reservations_report.json"
                                   (json_dumps all) (env_state w4)).1])
                   (api_log w4 ++ [WriteFile "aws_reservations_report.json"]))
          end
      end
  end.
Proof.
  split.
  { rewrite main_run. unfold main_outcome, reported.
    match goal with
    | |- (match ?x with _ => _ end).1 = _ => by destruct x as [[[]|e] w']
    end. }
  rewrite main_run. unfold main_outcome, reported.
  destruct (get_caller_identity E (env_state w)) as [identity s1].
  destruct (identity ≫= _) as [account_id|e]; [|done].
  cbn [api_log]. fold (after_header E w s1 account_id).
  pose proof (get_all_regions_log E (after_header E w s1 account_id)) as Llist.
  destruct (get_all_regions E (after_header E w s1 account_id))
    as [[regions|e] w3].
  2:{ split; [|done].
      exists [GetCallerIdentity; DescribeRegions]. split.
      - simpl in Llist. by rewrite Llist, <- app_assoc.
      - by repeat constructor. }
  assert (R3 : only_reads w w3).
  { exists [GetCallerIdentity; DescribeRegions]. split.
    - simpl in Llist. by rewrite Llist, <- app_assoc.
    - by repeat constructor. }
  fold (before_scan regions w3).
  pose proof (scan_regions_only_reads E regions [] ∅ (before_scan regions w3))
    as Rscan.
  pose proof (scan_regions_typed E regions [] ∅ (before_scan regions w3))
    as Htyped.
  destruct (scan_regions E regions [] ∅ (before_scan regions w3))
    as [[[all rwd]|e] w4].
  2:{ split; [|done].
      eapply only_reads_trans; [exact R3|].
      eapply only_reads_trans; [by apply only_reads_same|exact Rscan]. }
  split.
  { eapply only_reads_trans; [exact R3|].
    eapply only_reads_trans; [by apply only_reads_same|exact Rscan]. }
  assert (Hall : Forall typed all).
  { eapply Htyped; [constructor|done]. }
  rewrite region_index_run, print_summary_typed by done.
  rewrite detailed_report_run
    by (eapply Forall_impl; [exact Hall|exact typed_has_type]).
  rewrite save_to_json_run. cbn [env_state stdout api_log].
  by rewrite <- !app_assoc.
Qed.

(** When the identity call fails, [main] prints the lines for that
    exception, the two lines about credentials for [NoCredentialsError] and
    one line for any other, and ends: no header, no other call, no file. *)
Theorem main_identity_failure `{Runtime} `{JsonLib} {S} (E : Env S)
    (w : world S) (e : exn) (s1 : S) :
  get_caller_identity E (env_state w) = (Raise e, s1) ->
  main E w =
    (Ok tt,
     World s1 (stdout w ++ failure_lines e) (api_log w ++ [GetCallerIdentity])).
Proof.
  intros Hid. rewrite main_run. unfold main_outcome, reported.
  by rewrite Hid.
Qed.

Lemma main_identity_failure_witness :
  @main sample_runtime sample_json unit no_credentials_env w0 =
    (Ok tt,
     World tt
       [ "Error: AWS credentials not found. Please configure your AWS credentials.";
         "You can use: aws configure, environment variables, or IAM roles." ]
       [GetCallerIdentity]).
Proof.
  apply (@main_identity_failure sample_runtime sample_json unit
           no_credentials_env w0 NoCredentialsError tt).
  reflexivity.
Defined.

(** When an exception leaves the scan (an exception of a fetcher that is
    not a provider error, or a malformed record), [main] prints the lines
    for it after what the scan had printed and ends: the index, the summary
    and the detailed report are not printed and no file is written. *)
Theorem main_scan_aborted `{Runtime} `{JsonLib} {S} (E : Env S)
    (w w3 w4 : world S) (info : dict string) (s1 : S) (account_id : string)
    (regions : list string) (e : exn) :
  get_caller_identity E (env_state w) = (Ok info, s1) ->
  dict_get info "Account" = Some account_id ->
  get_all_regions E (after_header E w s1 account_id) = (Ok regions, w3) ->
  scan_regions E regions [] ∅ (before_scan regions w3) = (Raise e, w4) ->
  main E w =
    (Ok tt, World (env_state w4) (stdout w4 ++ failure_lines e) (api_log w4)).
Proof.
  intros Hid Hacc Hregions Hscan.
  rewrite main_run. unfold main_outcome, reported.
  rewrite Hid. simpl. unfold subscript. rewrite Hacc.
  unfold after_header in Hregions. cbn [api_log]. rewrite Hregions.
  unfold before_scan in Hscan. by rewrite Hscan.
Qed.

Lemma main_scan_aborted_witness :
  @main sample_runtime sample_json unit unreachable_env w0 =
    (Ok tt,
     World tt
       (stdout unreachable_main_world ++
        ["An unexpected error occurred: Could not connect to the endpoint URL"])
       (api_log unreachable_main_world)).
Proof.
  apply (@main_scan_aborted sample_runtime sample_json unit unreachable_env
           w0 listed_world unreachable_main_world
           [("Account", "123456789012")] tt "123456789012" ["us-east-1"]
           (BotoCoreError "Could not connect to the endpoint URL"));
    by vm_compute.
Defined.

(** When the identity call, the listing of the regions and the scan
    succeed, [main] prints the region index, the summary and the detailed
    report of the aggregated list, in that order and without an exception,
    then asks for the serialised list to be written to
    [aws_reservations_report.json] and prints the outcome of the write;
    the write is its last call. *)
Theorem main_completes `{Runtime} `{JsonLib} {S} (E : Env S)
    (w w3 w4 : world S) (info : dict string) (s1 : S) (account_id : string)
    (regions : list string) (all : list record) (rwd : gset string) :
  get_caller_identity E (env_state w) = (Ok info, s1) ->
  dict_get info "Account" = Some account_id ->
  get_all_regions E (after_header E w s1 account_id) = (Ok regions, w3) ->
  scan_regions E regions [] ∅ (before_scan regions w3) = (Ok (all, rwd), w4) ->
  main E w =
    (Ok tt,
     World
       (write_file E "aws_reservations_report.json" (json_dumps all)
                   (env_state w4)).2
       (stdout w4 ++ index_lines all rwd ++ summary_of all ++
        detailed_lines all ++
        [save_line "aws_reservations_report.json"
           (write_file E "aws_reservations_report.json" (json_dumps all)
                       (env_state w4)).1])
       (api_log w4 ++ [WriteFile "aws_reservations_report.json"])).
Proof.
  intros Hid Hacc Hregions Hscan.
  assert (Hall : Forall typed all).
  { eapply scan_regions_typed; [|exact Hscan]. constructor. }
  rewrite main_run. unfold main_outcome, reported.
  rewrite Hid. simpl. unfold subscript. rewrite Hacc.
  unfold after_header in Hregions. cbn [api_log]. rewrite Hregions.
  unfold before_scan in Hscan. rewrite Hscan.
  rewrite region_index_run, print_summary_typed by done.
  rewrite detailed_report_run
    by (eapply Forall_impl; [exact Hall|exact typed_has_type]).
  rewrite save_to_json_run. cbn [env_state stdout api_log].
  by rewrite <- !app_assoc.
Qed.

Lemma main_completes_witness :
  @main sample_runtime sample_json unit plans_env w0 =
    (Ok tt,
     World tt
       (stdout plans_main_world ++
        index_lines [plan0_record] {["us-east-1"]} ++
        summary_of [plan0_record] ++ detailed_lines [plan0_record] ++
        [nl +:+ "Report saved to: aws_reservations_report.json"])
       (api_log plans_main_world ++ [WriteFile "aws_reservations_report.json"])).
Proof.
  apply (@main_completes sample_runtime sample_json unit plans_env
           w0 listed_world plans_main_world
           [("Account", "123456789012")] tt "123456789012" ["us-east-1"]
           [plan0_record] {["us-east-1"]});
    by vm_compute.
Defined.

(** ** More on the records of a fetcher *)

Lemma format_datetime_field v t :
  format_datetime v = Ok t -> exists s, t = VStr s /\ date_field_of v s.
Proof.
  unfold format_datetime.
  destruct v as [|b|z|x|s|d]; simpl.
  - intros [= <-]. by eexists.
  - destruct b; [done|]. intros [= <-]. by eexists.
  - destruct (z =? 0)%Z; simpl; [|done]. intros [= <-]. by eexists.
  - destruct (x =? 0)%float; simpl; [|done]. intros [= <-]. by eexists.
  - destruct s as [|a s]; simpl; intros [= <-]; by eexists.
  - intros [= <-]. eexists. split; [reflexivity|].
    simpl. apply strftime_utc_text.
Qed.

(** The date fields of a normalised record are always text: the provider's
    text when it is not empty, the provider's date in the format
    [YYYY-MM-DD HH:MM:SS UTC] when its year is 1000 or later, and ["N/A"]
    when the provider gives no value or a falsy one. *)
Theorem normalise_date_fields `{Runtime} (c : category) (region : string)
    (ri : raw) (r : record) :
  normalise c region ri = Ok r ->
  Forall (fun f => exists s, dict_get r f.2 = Some (VStr s) /\
                             date_field_of (get_or_none ri f.1) s)
         (date_fields c).
Proof.
  intros Hr.
  destruct c; simpl in Hr; simpl;
    repeat (apply Forall_cons; split;
            [ cbn [fst snd];
              match goal with
              | |- exists s, dict_get _ ?k = _ /\ _ => item_of Hr k
              end;
              symmetry in Hk;
              apply format_datetime_field in Hk as (s & -> & Hs);
              by exists s |]);
    apply Forall_nil_2.
Qed.

Lemma normalise_date_fields_witness :
  Forall (fun f => exists s, dict_get instance0_record f.2 = Some (VStr s) /\
                             date_field_of (get_or_none instance0 f.1) s)
         (date_fields Compute).
Proof.
  apply (normalise_date_fields Compute "us-east-1" instance0 instance0_record).
  reflexivity.
Defined.

(** Every record the compute and the database fetcher return carries the
    region the fetcher was called with as its ['Region']. *)
Theorem compute_database_region `{Runtime} {S} (E : Env S) (c : category)
    (region : string) (w w' : world S) (rs : list record) :
  c <> SubscriptionPlan ->
  fetcher E c region w = (Ok rs, w') ->
  Forall (fun r => dict_get r "Region" = Some (VStr region)) rs.
Proof. apply fetcher_region. Qed.

Lemma compute_database_region_witness :
  Forall (fun r => dict_get r "Region" = Some (VStr "us-east-1"))
         [instance0_record].
Proof.
  apply (compute_database_region instances_env Compute "us-east-1" w0
           (World tt [] [DescribeReservedInstances "us-east-1"]));
    [discriminate|reflexivity].
Defined.
